(** * Janitor: the hosts API and the user API

    A shallow embedding of the request handlers of the two API resources
    of the repository: the hosts API ([src/.eslintrc-browser.js], below
    the ESLint settings) and the user API ([src/unnamed/part_000]).  Line
    numbers are those of these two files.

    Every handler is a function from the request, and the state it
    touches, to the response it sends.  The modules that the handlers
    [require] ([lib/hosts], [lib/users], [lib/machines],
    [lib/configurations], [fast-json-patch]) and the [JSON] builtin are
    interfaces, one type class each: a statement about a handler holds
    whatever these modules compute.  Instances of them, in the second
    half of the definitions, run the handlers on the [examples] of the
    source. *)

From Stdlib Require Import ZArith String Ascii List DecimalString DecimalNat.
From stdpp Require Import gmap strings list.

Local Set Warnings "-register-all".
Local Open Scope Z_scope.

(** ** JavaScript values *)

(** What [JSON.parse] produces.  An object keeps its keys in insertion
    order, and holds each key once.  Numbers are the integers: no handler
    computes with a number of a body. *)
Inductive json : Type :=
| JNull
| JBool (b : bool)
| JNum (n : Z)
| JStr (s : string)
| JArr (items : list json)
| JObj (fields : list (string * json)).

(** [o[k]] on a list of own properties; [None] is [undefined]. *)
Fixpoint property {A : Type} (k : string) (fields : list (string * A)) : option A :=
  match fields with
  | [] => None
  | (k', v) :: rest => if String.eqb k' k then Some v else property k rest
  end.

(** [object[key] = value]: a key the object has keeps its place and
    takes the new value, a new key comes last. *)
Fixpoint assign (key : string) (value : json) (fields : list (string * json))
    : list (string * json) :=
  match fields with
  | [] => [(key, value)]
  | (k, v) :: rest =>
      if String.eqb k key then (k, value) :: rest
      else (k, v) :: assign key value rest
  end.

(** Truthiness of a value that is a string, [null] or [undefined]. *)
Definition truthy (s : option string) : bool :=
  match s with
  | Some s => negb (String.eqb s "")
  | None => false
  end.

(** [a === b] on such values. *)
Definition strict_eq (a b : option string) : bool := bool_decide (a = b).

(** ** The data the handlers see *)

(** A user: the key that tells users apart, and the two mappings that
    the user API reads and patches. *)
Record User := {
  email : string;
  profile : json;
  configurations : json
}.

Record OAuth2Client := {
  client_id : string;
  client_secret : string
}.

Record Host := {
  properties : json;
  oauth2client : OAuth2Client
}.

(** [request.oauth2scope]: [{ hostname, user, scopes }], [scopes] a [Set]. *)
Record OAuth2Scope := {
  scope_hostname : string;
  scope_user : User;
  scopes : gset string
}.

(** [machine.docker.ports]: project port to [{ port, proxy }]. *)
Record Machine := {
  docker_ports : gmap string json
}.

(** The request: URL and query parameters, headers (lower-case names),
    the session's user, the delegation scope, and the chunks of the body
    in the order of the [data] events. *)
Record Request := {
  query : list (string * string);
  headers : list (string * string);
  user : option User;
  oauth2scope : option OAuth2Scope;
  data : list string
}.

Record Response := {
  statusCode : Z;
  body : json
}.

(** A handler answers, or an exception leaves it uncaught. *)
Inductive Outcome : Type :=
| Responded (response : Response)
| Uncaught.

(** [response.json(value)] with the status left at 200. *)
Definition ok (value : json) : Response :=
  {| statusCode := 200; body := value |}.

(** [response.statusCode = status; response.json({ error: message })]. *)
Definition error (status : Z) (message : string) : Response :=
  {| statusCode := status; body := JObj [("error"%string, JStr message)] |}.

(** [request.query] as the object it is. *)
Definition query_object (q : list (string * string)) : json :=
  JObj (map (fun kv => (fst kv, JStr (snd kv))) q).

(** The request body once the [end] event fires: [json += String(chunk)]. *)
Definition received (request : Request) : string :=
  fold_left String.append (data request) ""%string.

(** ** The required modules *)

Module JSON.
(** [JSON.parse(text)]; [None] when it throws. *)
Class lib := { parse : string -> option json }.
End JSON.

Module users.
(** [users.isAdmin(user)], also called with no user. *)
Class lib := { isAdmin : option User -> bool }.
End users.

Module hosts.
(** [lib/hosts] over the database [DB].  [authenticate] gives the
    hostname the request's OAuth2 client credential belongs to, or
    [null]; [create], [update] and [resetOAuth2ClientSecret] hand the
    host to their callback, or an error ([None]). *)
Class lib (DB : Type) := {
  authenticate : DB -> Request -> option string;
  get : DB -> option string -> option Host;
  create : string -> json -> DB -> option Host * DB;
  update : string -> json -> DB -> option Host * DB;
  resetOAuth2ClientSecret : Host -> DB -> option Host * DB
}.
End hosts.

Module machines.
(** [machines.getMachineByContainer(user, hostname, container)]. *)
Class lib := {
  getMachineByContainer : User -> option string -> string -> option Machine
}.
End machines.

Module configurations.
(** [configurations.allowed]: the file names a user may configure. *)
Class lib := { allowed : list string }.
End configurations.

Module jsonpatch.
(** What a call of [jsonpatch.applyPatch(document, patch)] leaves
    behind: the document, which it changes in place, and whether it
    threw. *)
Record Result := {
  document : json;
  thrown : bool
}.
Class lib := { applyPatch : json -> json -> Result }.
End jsonpatch.

(** ** The hosts API *)

Section hostsAPI.
Context {DB : Type} `{!users.lib, !hosts.lib DB, !JSON.lib}.

(** [user && users.isAdmin(user)]. *)
Definition admin (request : Request) : bool :=
  match user request with
  | Some u => users.isAdmin (Some u)
  | None => false
  end.

(** The part of GET /hosts/:hostname under "User authentication". *)
Definition hostAPI_get_user (hostname : option string) (request : Request)
    (db : DB) : Outcome :=
  match (if admin request then hosts.get db hostname else None) with
  | Some host => Responded (ok (properties host))
  | None => Responded (error 404 "Host not found")
  end.

(** GET /hosts/:hostname. *)
Definition hostAPI_get (request : Request) (db : DB) : Outcome :=
  let hostname := property "hostname" (query request) in
  if negb (truthy hostname) then Responded (error 400 "Invalid hostname")
  else
    let authenticatedHostname := hosts.authenticate db request in
    match (if truthy authenticatedHostname
              && strict_eq authenticatedHostname hostname
           then hosts.get db hostname else None) with
    | Some host => Responded (ok (properties host))
    | None => hostAPI_get_user hostname request db
    end.

(** [getHostProperties], in the continuation-passing style of the source. *)
Definition getHostProperties (request : Request)
    (callback : json -> DB -> Outcome * DB) (db : DB) : Outcome * DB :=
  if negb (strict_eq (property "content-type" (headers request))
                     (Some "application/json"%string))
  then callback (query_object (query request)) db
  else
    match JSON.parse (received request) with
    | None => (Responded (error 400 "Problems parsing JSON"), db)
    | Some parameters => callback parameters db
    end.

(** The callbacks that [createHost] and [updateHost] hand to
    [getHostProperties]. *)
Definition created (hostname : string) (submitted : json) (db : DB)
    : Outcome * DB :=
  match hosts.create hostname submitted db with
  | (None, db') => (Responded (error 500 "Could not create host"), db')
  | (Some host, db') =>
      (Responded {| statusCode := 201; body := properties host |}, db')
  end.

Definition updated (hostname : string) (submitted : json) (db : DB)
    : Outcome * DB :=
  match hosts.update hostname submitted db with
  | (None, db') => (Responded (error 500 "Could not update host"), db')
  | (Some host, db') => (Responded (ok (properties host)), db')
  end.

Definition createHost (hostname : string) (request : Request) (db : DB)
    : Outcome * DB :=
  getHostProperties request (created hostname) db.

Definition updateHost (hostname : string) (request : Request) (db : DB)
    : Outcome * DB :=
  getHostProperties request (updated hostname) db.

(** The part of POST /hosts/:hostname from "User authentication" on. *)
Definition hostAPI_post_user (hostname : string) (request : Request) (db : DB)
    : Outcome * DB :=
  if admin request then
    match hosts.get db (Some hostname) with
    | Some _ => updateHost hostname request db
    | None => createHost hostname request db
    end
  else (Responded (error 403 "Unauthorized"), db).

(** POST /hosts/:hostname. *)
Definition hostAPI_post (request : Request) (db : DB) : Outcome * DB :=
  match property "hostname" (query request) with
  | Some hostname =>
      if negb (truthy (Some hostname))
      then (Responded (error 400 "Invalid hostname"), db)
      else
        let authenticatedHostname := hosts.authenticate db request in
        if truthy authenticatedHostname
           && strict_eq authenticatedHostname (Some hostname)
        then updateHost hostname request db
        else hostAPI_post_user hostname request db
  | None => (Responded (error 400 "Invalid hostname"), db)
  end.

(** [response.json(host.oauth2client)]. *)
Definition credentials (host : Host) : Response :=
  ok (JObj [("id"%string, JStr (client_id (oauth2client host)));
            ("secret"%string, JStr (client_secret (oauth2client host)))]).

(** GET /hosts/:hostname/credentials. *)
Definition hostAPI_get_credentials (request : Request) (db : DB) : Outcome :=
  if negb (users.isAdmin (user request))
  then Responded (error 404 "Host not found")
  else
    match hosts.get db (property "hostname" (query request)) with
    | None => Responded (error 404 "Host not found")
    | Some host => Responded (credentials host)
    end.

(** DELETE /hosts/:hostname/credentials. *)
Definition hostAPI_delete_credentials (request : Request) (db : DB)
    : Outcome * DB :=
  if negb (users.isAdmin (user request))
  then (Responded (error 404 "Host not found"), db)
  else
    match hosts.get db (property "hostname" (query request)) with
    | None => (Responded (error 404 "Host not found"), db)
    | Some host =>
        match hosts.resetOAuth2ClientSecret host db with
        | (None, db') =>
            (Responded (error 500 "Could not reset host credentials"), db')
        | (Some host', db') => (Responded (credentials host'), db')
        end
    end.
End hostsAPI.

(** *** GET /hosts/:hostname/:container/:port *)

(** The character class [[0-9a-f]]. *)
Definition hex_digit (c : ascii) : bool :=
  let n := nat_of_ascii c in
  ((48 <=? n) && (n <=? 57) || (97 <=? n) && (n <=? 102))%nat.

Fixpoint all_hex (s : string) : bool :=
  match s with
  | EmptyString => true
  | String c rest => hex_digit c && all_hex rest
  end.

(** [/^[0-9a-f]+$/.test(container)]: one hexadecimal digit or more, and
    nothing else. *)
Definition hex_test (container : string) : bool :=
  negb (String.eqb container "") && all_hex container.

(** [container.length < 16 || !/^[0-9a-f]+$/.test(container)]. *)
Definition invalid_container (container : string) : bool :=
  (String.length container <? 16)%nat || negb (hex_test container).

(** [scopes.has('user') || scopes.has('user:ports')]. *)
Definition covers_ports (scope : OAuth2Scope) : bool :=
  bool_decide ("user"%string ∈ scopes scope)
  || bool_decide ("user:ports"%string ∈ scopes scope).

(** The variable [user] once lines 358 to 365 have run: the session's
    user or, without one, the user of a delegation scope that is bound
    to this hostname and covers ports. *)
Definition port_user (request : Request) : option User :=
  match user request with
  | Some u => Some u
  | None =>
      match oauth2scope request with
      | Some scope =>
          if strict_eq (Some (scope_hostname scope))
                       (property "hostname" (query request))
             && covers_ports scope
          then Some (scope_user scope)
          else None
      | None => None
      end
  end.

(** [String(request.query.port)]. *)
Definition port_string (request : Request) : string :=
  match property "port" (query request) with
  | Some p => p
  | None => "undefined"%string
  end.

Section portAPI.
Context `{!machines.lib}.

(** The handler.  Without a [container] among the parameters,
    [container.length] is a [TypeError]. *)
Definition hostAPI_get_port (request : Request) : Outcome :=
  match port_user request with
  | None => Responded (error 403 "Unauthorized")
  | Some user =>
      match property "container" (query request) with
      | None => Uncaught
      | Some container =>
          if invalid_container container
          then Responded (error 400 "Invalid container ID")
          else
            match machines.getMachineByContainer
                    user (property "hostname" (query request)) container with
            | None => Responded (error 404 "Container not found")
            | Some machine =>
                match docker_ports machine !! port_string request with
                | Some info => Responded (ok info)
                | None => Responded (error 404 "Port not found")
                end
            end
      end
  end.
End portAPI.

(** ** The user API *)

(** What a handler of the user API does besides answering: the object
    [request.user] as the handler leaves it (the handler patches it in
    place), and whether [db.save()] ran. *)
Record Effect := {
  outcome : Outcome;
  user_after : option User;
  saved : bool
}.

(** The request with another body. *)
Definition with_data (request : Request) (chunks : list string) : Request :=
  {| query := query request; headers := headers request; user := user request;
     oauth2scope := oauth2scope request; data := chunks |}.

(** [user.profile], respectively [user.configurations], after a patch. *)
Definition with_profile (u : User) (value : json) : User :=
  {| email := email u; profile := value; configurations := configurations u |}.

Definition with_configurations (u : User) (value : json) : User :=
  {| email := email u; profile := profile u; configurations := value |}.

(** [path.replace(/^\//, '')]. *)
Definition strip_slash (path : string) : string :=
  match path with
  | String "/"%char rest => rest
  | _ => path
  end.

(** [operation.path.replace(/^\//, '')]; [None] is the [TypeError] of an
    operation that is [null], or whose [path] is not a string. *)
Definition changedFile (operation : json) : option string :=
  match operation with
  | JObj fields =>
      match property "path" fields with
      | Some (JStr path) => Some (strip_slash path)
      | _ => None
      end
  | _ => None
  end.

(** [operations.map(operation => ...)]; [None] is a [TypeError]: of
    [operations.map] when [operations] is no array, or of a callback. *)
Definition changedFiles (operations : json) : option (list string) :=
  match operations with
  | JArr items => mapM changedFile items
  | _ => None
  end.

(** [configurations.allowed.includes(file)]. *)
Definition includes (files : list string) (file : string) : bool :=
  existsb (String.eqb file) files.

(** The [for ... of] loop of lines 130 to 136: the first changed file
    that is not allowed. *)
Definition forbidden (allowed : list string) (files : list string) : option string :=
  find (fun file => negb (includes allowed file)) files.

Section userAPI.
Context `{!JSON.lib, !jsonpatch.lib, !configurations.lib}.

(** PATCH /user. *)
Definition userAPI_patch (request : Request) : Effect :=
  match user request with
  | None =>
      {| outcome := Responded (error 403 "Unauthorized");
         user_after := None; saved := false |}
  | Some u =>
      match JSON.parse (received request) with
      | None =>
          {| outcome := Responded (error 400 "Problems parsing JSON");
             user_after := Some u; saved := false |}
      | Some operations =>
          let applied := jsonpatch.applyPatch (profile u) operations in
          let u' := with_profile u (jsonpatch.document applied) in
          if jsonpatch.thrown applied
          then {| outcome := Uncaught; user_after := Some u'; saved := false |}
          else {| outcome := Responded (ok (profile u'));
                  user_after := Some u'; saved := true |}
      end
  end.

(** The [try] block of PATCH /user/configurations: the operations, the
    answer that ends the request, or [None] for the [catch]. *)
Definition checked_operations (text : string) : option (json + Response) :=
  match JSON.parse text with
  | None => None
  | Some operations =>
      match changedFiles operations with
      | None => None
      | Some files =>
          match forbidden configurations.allowed files with
          | Some file =>
              Some (inr (error 400 ("Updating " +:+ file +:+ " is forbidden")))
          | None => Some (inl operations)
          end
      end
  end.

(** PATCH /user/configurations. *)
Definition configurationsAPI_patch (request : Request) : Effect :=
  match user request with
  | None =>
      {| outcome := Responded (error 403 "Unauthorized");
         user_after := None; saved := false |}
  | Some u =>
      match checked_operations (received request) with
      | None =>
          {| outcome := Responded (error 400 "Problems parsing JSON");
             user_after := Some u; saved := false |}
      | Some (inr refusal) =>
          {| outcome := Responded refusal; user_after := Some u; saved := false |}
      | Some (inl operations) =>
          let applied := jsonpatch.applyPatch (configurations u) operations in
          let u' := with_configurations u (jsonpatch.document applied) in
          if jsonpatch.thrown applied
          then {| outcome := Uncaught; user_after := Some u'; saved := false |}
          else {| outcome := Responded (ok (configurations u'));
                  user_after := Some u'; saved := true |}
      end
  end.
End userAPI.

(** *** PUT /user/configurations/:file *)

(** A running container: the host it runs on and its id. *)
Record Container := {
  container_host : string;
  container_id : string
}.

Module engine.
(** The remote engine client: the running containers of a user across
    all hosts ([None] when they cannot be listed), and whether writing
    the user's file into one container succeeds. *)
Class lib := {
  containers : User -> option (list Container);
  writeFile : User -> option string -> Container -> bool
}.
End engine.

(** Modelled from the spec: [machines.deployConfigurationInAllContainers]
    of [lib/machines], which is not among the sources.  It enumerates the
    running containers of the user, writes the file into each one, and
    resolves to the number of containers whose write succeeded; a failed
    write is tolerated and left out of the count, and only a failed
    enumeration rejects ([None]). *)
Definition deployConfigurationInAllContainers `{!engine.lib}
    (u : User) (file : option string) : option nat :=
  match engine.containers u with
  | None => None
  | Some running => Some (length (filter (fun c => engine.writeFile u file c = true) running))
  end.

(** [String(count)] for a count. *)
Definition decimal (count : nat) : string :=
  NilEmpty.string_of_uint (Nat.to_uint count).

(** The message of line 211. *)
Definition deployed_message (count : nat) : string :=
  "Successfully deployed to " +:+ decimal count +:+ " container"
    +:+ (if (count =? 1)%nat then "" else "s").

Section deployAPI.
Context `{!engine.lib}.

(** PUT /user/configurations/:file: the [then] and the [catch] of the
    promise. *)
Definition configurationAPI_put (request : Request) : Outcome :=
  match user request with
  | None => Responded (error 403 "Unauthorized")
  | Some u =>
      match deployConfigurationInAllContainers u (property "file" (query request)) with
      | Some count =>
          Responded (ok (JObj [("message"%string, JStr (deployed_message count))]))
      | None => Responded (error 500 "Could not deploy configuration")
      end
  end.
End deployAPI.

(** ** The other handlers of the two files *)

Module db.
(** [db.get('hosts')]: the object of the hosts, as its own properties
    in the order in which [for ... in] visits them. *)
Class lib (DB : Type) := { get_hosts : DB -> list (string * Host) }.
End db.

Module docker.
(** [docker.version({ host: hostname }, callback)]: the version that
    the engine of the host reports, or an error ([None]). *)
Class lib := { version : option string -> option json }.
End docker.

Module reset.
(** [configurations.resetToDefault(user, file, callback)]: the user as
    the call leaves it, and whether the callback gets an error. *)
Class lib := { resetToDefault : User -> option string -> User * bool }.
End reset.

Section hostsAPI_rest.
Context {DB : Type} `{!users.lib, !hosts.lib DB, !db.lib DB, !docker.lib}.

(** GET /hosts (lines 54 to 68). *)
Definition hostsAPI_get (request : Request) (db : DB) : Outcome :=
  if negb (users.isAdmin (user request))
  then Responded (error 403 "Unauthorized")
  else Responded (ok (JArr (map (fun entry => JStr (fst entry)) (db.get_hosts db)))).

(** GET /hosts/:hostname/version (lines 312 to 336). *)
Definition hostAPI_get_version (request : Request) (db : DB) : Outcome :=
  if negb (users.isAdmin (user request))
  then Responded (error 404 "Host not found")
  else
    let hostname := property "hostname" (query request) in
    match hosts.get db hostname with
    | None => Responded (error 404 "Host not found")
    | Some _ =>
        match docker.version hostname with
        | None => Responded (error 404 "Host unreachable")
        | Some version => Responded (ok (JObj [("docker"%string, version)]))
        end
    end.
End hostsAPI_rest.

(** GET /user (lines 21 to 30 of the user API). *)
Definition userAPI_get (request : Request) : Outcome :=
  match user request with
  | None => Responded (error 403 "Unauthorized")
  | Some u => Responded (ok (profile u))
  end.

(** GET /user/configurations (lines 90 to 98). *)
Definition configurationsAPI_get (request : Request) : Outcome :=
  match user request with
  | None => Responded (error 403 "Unauthorized")
  | Some u => Responded (ok (configurations u))
  end.

(** An answer with a body, or [response.end()] under a status. *)
Inductive Reply : Type :=
| WithBody (response : Response)
| NoContent (status : Z).

(** What DELETE /user/configurations/:file does: its answer, and the
    object [request.user] as it leaves it. *)
Record Reset := {
  reply : Reply;
  user_left : option User
}.

(** DELETE /user/configurations/:file (lines 169 to 186). *)
Definition configurationAPI_delete `{!reset.lib} (request : Request) : Reset :=
  match user request with
  | None =>
      {| reply := WithBody (error 403 "Unauthorized"); user_left := None |}
  | Some u =>
      let (u', failed) := reset.resetToDefault u (property "file" (query request)) in
      if failed
      then {| reply := WithBody (error 500 "Could not reset configuration");
              user_left := Some u' |}
      else {| reply := NoContent 204; user_left := Some u' |}
  end.

(** The request as somebody else sends it. *)
Definition with_identity (request : Request) (u : option User)
    (scope : option OAuth2Scope) : Request :=
  {| query := query request; headers := headers request; user := u;
     oauth2scope := scope; data := data request |}.

(** The condition of lines 93 and 147: the host credential of the
    request is the one of the hostname that the request names. *)
Definition host_authenticated {DB : Type} `{!hosts.lib DB}
    (request : Request) (db : DB) : bool :=
  truthy (hosts.authenticate db request)
  && strict_eq (hosts.authenticate db request) (property "hostname" (query request)).

(** ** The modules at work

    Instances of the interfaces above, to run the handlers on the
    requests of the [examples] blocks of the source. *)

(** *** JSON texts *)

Module JSONText.
Local Open Scope char_scope.

Definition quote : ascii := ascii_of_nat 34.
Definition backslash : ascii := ascii_of_nat 92.
Definition newline : ascii := ascii_of_nat 10.
Definition tab : ascii := ascii_of_nat 9.
Definition carriage_return : ascii := ascii_of_nat 13.

(** The text of a string value, between its quotes. *)
Fixpoint escape (s : string) : string :=
  match s with
  | EmptyString => EmptyString
  | String c rest =>
      if Ascii.eqb c quote then String backslash (String quote (escape rest))
      else if Ascii.eqb c backslash then String backslash (String backslash (escape rest))
      else if Ascii.eqb c newline then String backslash (String "n" (escape rest))
      else if Ascii.eqb c tab then String backslash (String "t" (escape rest))
      else if Ascii.eqb c carriage_return then String backslash (String "r" (escape rest))
      else String c (escape rest)
  end.

Definition quoted (s : string) : string :=
  String quote (escape s +:+ String quote EmptyString).

Definition integer (n : Z) : string :=
  NilEmpty.string_of_int (Z.to_int n).

Definition separated (texts : list string) : string :=
  String.concat "," texts.

(** [JSON.stringify(value)] on the values of [json]. *)
Fixpoint stringify (value : json) : string :=
  match value with
  | JNull => "null"
  | JBool true => "true"
  | JBool false => "false"
  | JNum n => integer n
  | JStr s => quoted s
  | JArr items => "[" +:+ separated (map stringify items) +:+ "]"
  | JObj fields =>
      "{" +:+ separated (map (fun kv => quoted (fst kv) +:+ ":" +:+ stringify (snd kv)) fields)
          +:+ "}"
  end.

Definition whitespace (c : ascii) : bool :=
  Ascii.eqb c " " || Ascii.eqb c newline || Ascii.eqb c tab
  || Ascii.eqb c carriage_return.

Fixpoint skip (s : string) : string :=
  match s with
  | String c rest => if whitespace c then skip rest else s
  | EmptyString => s
  end.

(** [prefix] at the head of [s], and what follows it. *)
Fixpoint expect (prefix s : string) : option string :=
  match prefix, s with
  | EmptyString, _ => Some s
  | String p prefix', String c rest =>
      if Ascii.eqb p c then expect prefix' rest else None
  | String _ _, EmptyString => None
  end.

(** A string after its opening quote, up to the closing one.  Of the
    escapes, those that [escape] writes, and [\/]. *)
Fixpoint chars (s : string) : option (string * string) :=
  match s with
  | EmptyString => None
  | String c rest =>
      if Ascii.eqb c quote then Some (EmptyString, rest)
      else if Ascii.eqb c backslash then
        match rest with
        | String e rest' =>
            let unescaped :=
              if Ascii.eqb e quote then Some quote
              else if Ascii.eqb e backslash then Some backslash
              else if Ascii.eqb e "/" then Some "/"
              else if Ascii.eqb e "n" then Some newline
              else if Ascii.eqb e "t" then Some tab
              else if Ascii.eqb e "r" then Some carriage_return
              else None in
            match unescaped, chars rest' with
            | Some u, Some (text, after) => Some (String u text, after)
            | _, _ => None
            end
        | EmptyString => None
        end
      else if (nat_of_ascii c <? 32)%nat then None
      else
        match chars rest with
        | Some (text, after) => Some (String c text, after)
        | None => None
        end
  end.

Definition digit (c : ascii) : option Z :=
  let n := nat_of_ascii c in
  if ((48 <=? n) && (n <=? 57))%nat then Some (Z.of_nat n - 48)%Z else None.

(** The digits at the head of [s], most significant first. *)
Fixpoint digits (s : string) : list Z * string :=
  match s with
  | String c rest =>
      match digit c with
      | Some d => let (ds, after) := digits rest in (d :: ds, after)
      | None => ([], s)
      end
  | EmptyString => ([], s)
  end.

(** An integer without fraction or exponent, and without leading zero. *)
Definition natural (s : string) : option (Z * string) :=
  match digits s with
  | ([], _) => None
  | (0%Z :: _ :: _, _) => None
  | (ds, after) =>
      match after with
      | String c _ =>
          if Ascii.eqb c "." || Ascii.eqb c "e" || Ascii.eqb c "E" then None
          else Some (fold_left (fun n d => 10 * n + d)%Z ds 0%Z, after)
      | EmptyString => Some (fold_left (fun n d => 10 * n + d)%Z ds 0%Z, after)
      end
  end.

Fixpoint value (fuel : nat) (s : string) : option (json * string) :=
  match fuel with
  | O => None
  | S fuel =>
      match skip s with
      | EmptyString => None
      | String c rest =>
          if Ascii.eqb c quote then
            match chars rest with
            | Some (text, after) => Some (JStr text, after)
            | None => None
            end
          else if Ascii.eqb c "[" then
            match skip rest with
            | String "]" after => Some (JArr [], after)
            | _ => items fuel rest []
            end
          else if Ascii.eqb c "{" then
            match skip rest with
            | String "}" after => Some (JObj [], after)
            | _ => members fuel rest []
            end
          else if Ascii.eqb c "-" then
            match natural rest with
            | Some (n, after) => Some (JNum (- n), after)
            | None => None
            end
          else if Ascii.eqb c "n" then
            option_map (pair JNull) (expect "ull" rest)
          else if Ascii.eqb c "t" then
            option_map (pair (JBool true)) (expect "rue" rest)
          else if Ascii.eqb c "f" then
            option_map (pair (JBool false)) (expect "alse" rest)
          else
            match natural (String c rest) with
            | Some (n, after) => Some (JNum n, after)
            | None => None
            end
      end
  end
with items (fuel : nat) (s : string) (read : list json) : option (json * string) :=
  match fuel with
  | O => None
  | S fuel =>
      match value fuel s with
      | Some (item, after) =>
          match skip after with
          | String "," after' => items fuel after' (read ++ [item])
          | String "]" after' => Some (JArr (read ++ [item]), after')
          | _ => None
          end
      | None => None
      end
  end
with members (fuel : nat) (s : string) (read : list (string * json))
    : option (json * string) :=
  match fuel with
  | O => None
  | S fuel =>
      match skip s with
      | String c rest =>
          if Ascii.eqb c quote then
            match chars rest with
            | Some (key, after) =>
                match skip after with
                | String ":" after' =>
                    match value fuel after' with
                    | Some (v, after'') =>
                        match skip after'' with
                        | String "," more => members fuel more (assign key v read)
                        | String "}" more => Some (JObj (assign key v read), more)
                        | _ => None
                        end
                    | None => None
                    end
                | _ => None
                end
            | None => None
            end
          else None
      | EmptyString => None
      end
  end.

(** [JSON.parse(text)] on integers and on strings of one-byte
    characters: one value, with nothing but white space after it. *)
Definition parse (text : string) : option json :=
  match value (2 * String.length text + 2) text with
  | Some (v, after) =>
      match skip after with
      | EmptyString => Some v
      | String _ _ => None
      end
  | None => None
  end.
End JSONText.

#[local] Instance JSON_text : JSON.lib := {| JSON.parse := JSONText.parse |}.

(** *** fast-json-patch *)

Module FastJsonPatch.
(** The library is a dependency of the repository, not a file of it.
    This is [applyPatch(document, patch)] as its documentation and
    RFC 6902 have it, for the operations [add], [replace], [remove]
    and [test] on objects inside objects; [Unmodelled] marks every
    input on which this text does not commit to what the library
    does. *)
Inductive Step : Type :=
| Done (document : json)
| Throws
| Unmodelled.

(** [path.split('/')]. *)
Fixpoint split (path : string) : list string :=
  match path with
  | EmptyString => [EmptyString]
  | String c rest =>
      if Ascii.eqb c "/" then EmptyString :: split rest
      else
        match split rest with
        | first :: others => String c first :: others
        | [] => [String c EmptyString]
        end
  end.

(** [s.replace(/~d/g, r)] for a digit [d]. *)
Fixpoint replace_tilde (d r : ascii) (s : string) : string :=
  match s with
  | EmptyString => EmptyString
  | String a tail =>
      if Ascii.eqb a "~" then
        match tail with
        | String c rest =>
            if Ascii.eqb c d then String r (replace_tilde d r rest)
            else String a (replace_tilde d r tail)
        | EmptyString => s
        end
      else String a (replace_tilde d r tail)
  end.

Definition unescapePathComponent (key : string) : string :=
  replace_tilde "0" "~" (replace_tilde "1" "/" key).

(** Names that every object answers to without owning them. *)
Definition inherited (key : string) : bool :=
  existsb (String.eqb key)
    ["__proto__"; "constructor"; "hasOwnProperty"; "isPrototypeOf";
     "propertyIsEnumerable"; "toLocaleString"; "toString"; "valueOf";
     "__defineGetter__"; "__defineSetter__"; "__lookupGetter__";
     "__lookupSetter__"]%string.

(** [delete obj[key]]. *)
Definition delete (key : string) (fields : list (string * json))
    : list (string * json) :=
  filter (fun kv => fst kv ≠ key) fields.

(** Deep equality, as [test] needs it: arrays item by item, objects
    key by key in any order. *)
Fixpoint equal (a b : json) : bool :=
  match a, b with
  | JNull, JNull => true
  | JBool x, JBool y => Bool.eqb x y
  | JNum x, JNum y => Z.eqb x y
  | JStr x, JStr y => String.eqb x y
  | JArr xs, JArr ys =>
      (fix each (xs ys : list json) : bool :=
         match xs, ys with
         | [], [] => true
         | x :: xs', y :: ys' => equal x y && each xs' ys'
         | _, _ => false
         end) xs ys
  | JObj fa, JObj fb =>
      (length fa =? length fb)%nat
      && (fix each (fa : list (string * json)) : bool :=
            match fa with
            | [] => true
            | (k, v) :: rest =>
                match property k fb with
                | Some v' => equal v v'
                | None => false
                end && each rest
            end) fa
  | _, _ => false
  end.

(** [objOps[op].call(operation, obj, key, document)] on an object. *)
Definition on_object (operation : list (string * json)) (op key : string)
    (fields : list (string * json)) : Step :=
  if inherited key || inherited op then Unmodelled
  else if String.eqb op "add" || String.eqb op "replace" then
    match property "value" operation with
    | Some v => Done (JObj (assign key v fields))
    | None => Unmodelled
    end
  else if String.eqb op "remove" then Done (JObj (delete key fields))
  else if String.eqb op "test" then
    match property key fields, property "value" operation with
    | Some v, Some expected => if equal v expected then Done (JObj fields) else Throws
    | None, None => Done (JObj fields)
    | _, _ => Throws
    end
  else if String.eqb op "move" || String.eqb op "copy" || String.eqb op "_get"
  then Unmodelled
  else Throws.

(** The loop of [applyOperation] over the keys of the path, from the
    object [obj] down. *)
Fixpoint descend (operation : list (string * json)) (op : string)
    (keys : list string) (obj : json) : Step :=
  match keys with
  | [] => Unmodelled
  | key :: deeper =>
      let key := unescapePathComponent key in
      match obj with
      | JObj fields =>
          match deeper with
          | [] => on_object operation op key fields
          | _ :: _ =>
              if inherited key then Unmodelled
              else
                match property key fields with
                | Some child =>
                    match descend operation op deeper child with
                    | Done child' => Done (JObj (assign key child' fields))
                    | other => other
                    end
                | None => Throws
                end
          end
      | JNull => Throws
      | _ => Unmodelled
      end
  end.

(** [applyOperation(document, operation)]. *)
Definition applyOperation (document operation : json) : Step :=
  match operation with
  | JNull => Throws
  | JObj o =>
      match property "op" o, property "path" o with
      | Some (JStr op), Some (JStr (String "/" rest)) =>
          descend o op (tl (split (String "/" rest))) document
      | _, _ => Unmodelled
      end
  | _ => Unmodelled
  end.

(** The loop of [applyPatch]: one operation after the other on the
    same document; the first one that throws ends the call, and leaves
    what the operations before it did. *)
Fixpoint each (document : json) (operations : list json) : option jsonpatch.Result :=
  match operations with
  | [] => Some {| jsonpatch.document := document; jsonpatch.thrown := false |}
  | operation :: later =>
      match applyOperation document operation with
      | Done document' => each document' later
      | Throws => Some {| jsonpatch.document := document; jsonpatch.thrown := true |}
      | Unmodelled => None
      end
  end.

(** [applyPatch(document, patch)]: on an array, the loop; on a value
    without [length], no operation at all. *)
Definition modelled (document patch : json) : option jsonpatch.Result :=
  match patch with
  | JArr operations => each document operations
  | JObj fields =>
      match property "length" fields with
      | None => Some {| jsonpatch.document := document; jsonpatch.thrown := false |}
      | Some _ => None
      end
  | JNum _ | JBool _ =>
      Some {| jsonpatch.document := document; jsonpatch.thrown := false |}
  | JNull => Some {| jsonpatch.document := document; jsonpatch.thrown := true |}
  | JStr _ => None
  end.

Definition applyPatch (document patch : json) : jsonpatch.Result :=
  match modelled document patch with
  | Some result => result
  | None => {| jsonpatch.document := document; jsonpatch.thrown := true |}
  end.
End FastJsonPatch.

#[local] Instance fast_json_patch : jsonpatch.lib :=
  {| jsonpatch.applyPatch := FastJsonPatch.applyPatch |}.

(** *** The cluster of the examples *)

Module Cluster.
(** [db.get('hosts')]: hostname to host. *)
Definition DB : Type := gmap string Host.

(** The host that [beforeTests] creates. *)
Definition host_name : Host :=
  {| properties := JObj [("port"%string, JStr "2376")];
     oauth2client := {| client_id := "1234"; client_secret := "123456" |} |}.

Definition db0 : DB := {[ "host.name"%string := host_name ]}.

(** The host whose OAuth2 client the [client_id] and [client_secret]
    of the query are. *)
Definition authenticate (db : DB) (request : Request) : option string :=
  match property "client_id" (query request),
        property "client_secret" (query request) with
  | Some id, Some secret =>
      fst <$> List.find
        (fun entry =>
           String.eqb (client_id (oauth2client (snd entry))) id
           && String.eqb (client_secret (oauth2client (snd entry))) secret)
        (map_to_list db)
  | _, _ => None
  end.

Definition get (db : DB) (hostname : option string) : option Host :=
  match hostname with
  | Some h => db !! h
  | None => None
  end.

Definition create (hostname : string) (submitted : json) (db : DB)
    : option Host * DB :=
  match db !! hostname with
  | Some _ => (None, db)
  | None =>
      let host :=
        {| properties := submitted;
           oauth2client := {| client_id := "client-of-" +:+ hostname;
                              client_secret := "secret" |} |} in
      (Some host, <[hostname := host]> db)
  end.

Definition update (hostname : string) (submitted : json) (db : DB)
    : option Host * DB :=
  match db !! hostname with
  | Some host =>
      let host' := {| properties := submitted; oauth2client := oauth2client host |} in
      (Some host', <[hostname := host']> db)
  | None => (None, db)
  end.

(** A new secret under the same id. *)
Definition reset (host : Host) : Host :=
  {| properties := properties host;
     oauth2client := {| client_id := client_id (oauth2client host);
                        client_secret := "new-" +:+ client_secret (oauth2client host) |} |}.

Definition resetOAuth2ClientSecret (host : Host) (db : DB) : option Host * DB :=
  (Some (reset host),
   (fun h => if String.eqb (client_id (oauth2client h)) (client_id (oauth2client host))
             then reset h else h) <$> db).

Definition admin : User :=
  {| email := "admin@example.com";
     profile := JObj [("name"%string, JStr "User Name")];
     configurations := JObj [(".gitconfig"%string, JStr "")] |}.

Definition visitor : User :=
  {| email := "visitor@example.com";
     profile := JObj [("name"%string, JStr "Visitor")];
     configurations := JObj [(".gitconfig"%string, JStr "")] |}.

Definition isAdmin (user : option User) : bool :=
  match user with
  | Some u => String.eqb (email u) (email admin)
  | None => false
  end.

(** The container of the last example of the hosts API, and one of
    the visitor. *)
Definition machine : Machine :=
  {| docker_ports :=
       {[ "8080"%string := JObj [("port"%string, JNum 42000);
                                 ("proxy"%string, JStr "https")] ]} |}.

Definition machine_of_visitor : Machine :=
  {| docker_ports :=
       {[ "8080"%string := JObj [("port"%string, JNum 42001);
                                 ("proxy"%string, JStr "https")] ]} |}.

Definition getMachineByContainer (user : User) (hostname : option string)
    (container : string) : option Machine :=
  if negb (strict_eq hostname (Some "host.name"%string)) then None
  else if String.eqb (email user) (email admin)
          && String.eqb container "abcdef0123456789"
  then Some machine
  else if String.eqb (email user) (email visitor)
          && String.eqb container "0123456789abcdef"
  then Some machine_of_visitor
  else None.

(** Three containers of the administrator; the write into the second
    one fails.  The visitor has none. *)
Definition containers (user : User) : option (list Container) :=
  if String.eqb (email user) (email admin)
  then Some [ {| container_host := "host.name"; container_id := "abcdef0123456789" |};
              {| container_host := "host.name"; container_id := "0123456789abcdef" |};
              {| container_host := "host.name"; container_id := "fedcba9876543210" |} ]
  else Some [].

Definition writeFile (user : User) (file : option string) (c : Container) : bool :=
  negb (String.eqb (container_id c) "0123456789abcdef").

(** A GET request: URL and query parameters, and who asks. *)
Definition request (parameters : list (string * string)) (user : option User)
    (scope : option OAuth2Scope) : Request :=
  {| query := parameters; headers := []; user := user; oauth2scope := scope;
     data := [] |}.

(** A request with a JSON body, sent in one chunk. *)
Definition send (parameters : list (string * string)) (user : option User)
    (payload : json) : Request :=
  {| query := parameters;
     headers := [("content-type"%string, "application/json"%string)];
     user := user; oauth2scope := None;
     data := [JSONText.stringify payload] |}.
End Cluster.

#[local] Instance cluster_users : users.lib := {| users.isAdmin := Cluster.isAdmin |}.

#[local] Instance cluster_hosts : hosts.lib Cluster.DB := {|
  hosts.authenticate := Cluster.authenticate;
  hosts.get := Cluster.get;
  hosts.create := Cluster.create;
  hosts.update := Cluster.update;
  hosts.resetOAuth2ClientSecret := Cluster.resetOAuth2ClientSecret
|}.

#[local] Instance cluster_machines : machines.lib :=
  {| machines.getMachineByContainer := Cluster.getMachineByContainer |}.

#[local] Instance cluster_engine : engine.lib :=
  {| engine.containers := Cluster.containers; engine.writeFile := Cluster.writeFile |}.

(** The one file name that the examples of the source show to be allowed. *)
#[local] Instance cluster_configurations : configurations.lib :=
  {| configurations.allowed := [".gitconfig"%string] |}.

(** *** Requests *)

Module Requests.
Import Cluster.
Local Open Scope string_scope.

Definition operation (op path value : string) : json :=
  JObj [("op", JStr op); ("path", JStr path); ("value", JStr value)].

(** The host [host.name] with its own credential. *)
Definition host_reads_itself : Request :=
  request [("hostname", "host.name"); ("client_id", "1234");
           ("client_secret", "123456")] None None.

Definition admin_reads_host : Request :=
  request [("hostname", "host.name")] (Some admin) None.

Definition admin_reads_unknown_host : Request :=
  request [("hostname", "unexistant.host.name")] (Some admin) None.

Definition visitor_reads_host : Request :=
  request [("hostname", "host.name")] (Some visitor) None.

(** The second example of POST /hosts/:hostname: the credential of
    [host.name] on another hostname. *)
Definition host_posts_elsewhere : Request :=
  send [("hostname", "unauthorized.host.name"); ("client_id", "1234");
        ("client_secret", "123456")] None (JObj [("port", JStr "2345")]).

(** The first example of POST /hosts/:hostname. *)
Definition host_posts_itself : Request :=
  send [("hostname", "host.name"); ("client_id", "1234");
        ("client_secret", "123456")] None (JObj [("port", JStr "2376")]).

(** The same request as a form: the port among the query parameters,
    and a body that is no JSON. *)
Definition host_posts_a_form : Request :=
  {| query := [("hostname", "host.name"); ("client_id", "1234");
               ("client_secret", "123456"); ("port", "2377")];
     headers := [("content-type", "application/x-www-form-urlencoded")];
     user := None; oauth2scope := None;
     data := ["port="; "2377"] |}.

Definition admin_reads_port : Request :=
  request [("hostname", "host.name"); ("container", "abcdef0123456789");
           ("port", "8080")] (Some admin) None.

(** A user who is no administrator, on a container of their own. *)
Definition visitor_reads_port : Request :=
  request [("hostname", "host.name"); ("container", "0123456789abcdef");
           ("port", "8080")] (Some visitor) None.

(** A delegation of the visitor for ports on [host.name]. *)
Definition ports_scope : OAuth2Scope :=
  {| scope_hostname := "host.name"; scope_user := visitor;
     scopes := {[ "user:ports" ]} |}.

Definition delegate_reads_port : Request :=
  request [("hostname", "host.name"); ("container", "0123456789abcdef");
           ("port", "8080")] None (Some ports_scope).

Definition delegate_reads_elsewhere : Request :=
  request [("hostname", "other.name"); ("container", "0123456789abcdef");
           ("port", "8080")] None (Some ports_scope).

(** Sixteen characters, the last of them no hexadecimal digit. *)
Definition admin_reads_bad_container : Request :=
  request [("hostname", "host.name"); ("container", "abcdef012345678g");
           ("port", "8080")] (Some admin) None.

(** The example of PATCH /user. *)
Definition rename : Request :=
  send [] (Some admin) (JArr [operation "add" "/name" "Different Name"]).

(** A batch whose second operation fails: the name is no longer the
    one that it tests for. *)
Definition rename_then_fail : Request :=
  send [] (Some admin)
    (JArr [operation "add" "/name" "Different Name";
           operation "test" "/name" "User Name"]).

(** A body that is JSON, but no array. *)
Definition patch_with_an_object : Request :=
  send [] (Some admin) (JObj []).

(** A body that is no JSON. *)
Definition patch_with_garbage : Request :=
  {| query := []; headers := []; user := Some admin; oauth2scope := None;
     data := ["[{"; "op"] |}.

(** The example of PATCH /user/configurations. *)
Definition configure_git : Request :=
  send [] (Some admin)
    (JArr [operation "add" "/.gitconfig" ("[user]" +:+ String JSONText.newline "name = Janitor")]).

Definition configure_then_fail : Request :=
  send [] (Some admin)
    (JArr [operation "add" "/.gitconfig" "[user]";
           operation "test" "/.gitconfig" ""]).

(** A path under an allowed file. *)
Definition configure_below_git : Request :=
  send [] (Some admin) (JArr [operation "add" "/.gitconfig/x" "[user]"]).

(** An allowed file first, then one that is not. *)
Definition configure_shell : Request :=
  send [] (Some admin)
    (JArr [operation "add" "/.gitconfig" "[user]";
           operation "add" "/.bashrc" "exit"]).

Definition admin_deploys : Request :=
  request [("file", ".gitconfig")] (Some admin) None.

Definition visitor_deploys : Request :=
  request [("file", ".gitconfig")] (Some visitor) None.
End Requests.

(** *** The rest of the cluster *)

Module Surroundings.
Import Cluster.
Local Open Scope string_scope.

(** The hosts of the database, hostname by hostname. *)
Definition get_hosts (db : DB) : list (string * Host) := map_to_list db.

(** The engine of [host.name] answers; no other one does. *)
Definition version (hostname : option string) : option json :=
  if strict_eq hostname (Some "host.name") then Some (JStr "17.06") else None.

(** The default of every file is the empty one; a request without a
    file fails. *)
Definition resetToDefault (u : User) (file : option string) : User * bool :=
  match file, configurations u with
  | Some name, JObj fields => (with_configurations u (JObj (assign name (JStr "") fields)), false)
  | _, _ => (u, true)
  end.

Definition admin_lists_hosts : Request := request [] (Some admin) None.

Definition visitor_asks_version : Request :=
  request [("hostname", "host.name")] (Some visitor) None.

Definition nobody_reads_host : Request :=
  request [("hostname", "host.name")] None None.

Definition admin_names_no_host : Request :=
  request [("hostname", "")] (Some admin) None.

(** The first example of POST /hosts/:hostname, sent by the
    administrator without the credential of the host. *)
Definition admin_posts_host : Request :=
  send [("hostname", "host.name")] (Some admin) (JObj [("port", JStr "2376")]).

Definition admin_posts_new_host : Request :=
  send [("hostname", "new.host.name")] (Some admin) (JObj [("port", JStr "2376")]).

(** The host announces JSON, and sends none. *)
Definition host_posts_garbage : Request :=
  {| query := [("hostname", "host.name"); ("client_id", "1234");
               ("client_secret", "123456")];
     headers := [("content-type", "application/json")];
     user := None; oauth2scope := None;
     data := ["{port"] |}.

(** The administrator with a delegation scope of the visitor. *)
Definition admin_with_scope : Request :=
  request [("hostname", "host.name"); ("container", "abcdef0123456789");
           ("port", "8080")] (Some admin) (Some Requests.ports_scope).

Definition nobody_patches : Request :=
  send [] None (JArr [Requests.operation "add" "/name" "Different Name"]).
End Surroundings.

#[local] Instance cluster_db : db.lib Cluster.DB :=
  {| db.get_hosts := Surroundings.get_hosts |}.

#[local] Instance cluster_docker : docker.lib :=
  {| docker.version := Surroundings.version |}.

#[local] Instance cluster_reset : reset.lib :=
  {| reset.resetToDefault := Surroundings.resetToDefault |}.

(** ** The words of the specification *)

(** The identities that the specification lets read a container port: an
    administrator, or a delegation scope bound to the hostname of the
    request with the capability [user] or [user:ports]. *)
Definition admin_or_delegated `{!users.lib} (request : Request) : bool :=
  match user request with
  | Some u => users.isAdmin (Some u)
  | None => false
  end
  || match oauth2scope request with
     | Some scope =>
         strict_eq (Some (scope_hostname scope)) (property "hostname" (query request))
         && covers_ports scope
     | None => false
     end.

(** The segment of a path up to its first ["/"]. *)
Fixpoint first_segment (path : string) : string :=
  match path with
  | EmptyString => EmptyString
  | String c rest =>
      if Ascii.eqb c "/" then EmptyString else String c (first_segment rest)
  end.

(** The top-level key of the path of an operation: the first segment
    after the leading ["/"]. *)
Definition top_level_key (path : string) : string :=
  first_segment (strip_slash path).

(** An operation that names a path: an object whose [path] is a string. *)
Definition has_path (operation : json) (path : string) : Prop :=
  exists fields, operation = JObj fields /\ property "path" fields = Some (JStr path).

(** A batch in which every operation names a path. *)
Definition batch_with_paths (operations : json) : Prop :=
  exists items, operations = JArr items
                /\ Forall (fun item => exists path, has_path item path) items.

(** ** Basic facts *)

Lemma truthy_Some (s : string) : truthy (Some s) = true <-> s <> ""%string.
Proof.
  unfold truthy. destruct (String.eqb_spec s ""); simpl; split; congruence.
Qed.

Lemma strict_eq_true (a b : option string) : strict_eq a b = true <-> a = b.
Proof. unfold strict_eq. apply bool_decide_eq_true. Qed.

Lemma strict_eq_false (a b : option string) : a <> b -> strict_eq a b = false.
Proof. unfold strict_eq. apply bool_decide_eq_false. Qed.

Lemma includes_In (files : list string) (file : string) :
  includes files file = true <-> In file files.
Proof.
  unfold includes. rewrite existsb_exists. split.
  - intros [x [Hin Heq]]. apply String.eqb_eq in Heq. now subst.
  - intros Hin. exists file. split; [assumption | apply String.eqb_refl].
Qed.

(** The character class, character by character. *)
Lemma hex_digit_class (c : ascii) :
  hex_digit c = true <-> In c (list_ascii_of_string "0123456789abcdef").
Proof.
  split.
  - destruct c as [[] [] [] [] [] [] [] []]; vm_compute; intros H;
      try discriminate H; intuition.
  - intros H. simpl in H.
    repeat (destruct H as [H | H]; [subst c; reflexivity |]). destruct H.
Qed.

Lemma all_hex_forall (s : string) :
  all_hex s = true <-> forall c, In c (list_ascii_of_string s) -> hex_digit c = true.
Proof.
  induction s as [| a s IH]; simpl.
  - split; [intros _ c [] | reflexivity].
  - rewrite andb_true_iff, IH. split.
    + intros [Ha Hs] c [<- | Hc]; auto.
    + intros H. split; [apply H; now left | intros c Hc; apply H; now right].
Qed.

(** ** The hosts API *)

Section hosts_facts.
Context {DB : Type} `{!users.lib, !hosts.lib DB, !JSON.lib}.

(** C1.  A host credential that authenticates hostname [a], presented
    on GET or POST /hosts/[b] with [a] different from [b], does not
    open the host branch: the request is handled by the user
    authentication alone, and without an administrator it is rejected,
    with 404 on GET and with 403 and an untouched database on POST. *)
Theorem host_credential_is_for_one_host (request : Request) (db : DB)
    (a b : string) :
  hosts.authenticate db request = Some a ->
  property "hostname" (query request) = Some b ->
  a <> b ->
  hostAPI_get request db
    = (if truthy (Some b) then hostAPI_get_user (Some b) request db
       else Responded (error 400 "Invalid hostname"))
  /\ hostAPI_post request db
    = (if truthy (Some b) then hostAPI_post_user b request db
       else (Responded (error 400 "Invalid hostname"), db))
  /\ (admin request = false -> b <> ""%string ->
      hostAPI_get request db = Responded (error 404 "Host not found")
      /\ hostAPI_post request db = (Responded (error 403 "Unauthorized"), db)).
Proof.
  intros Hauth Hname Hne.
  assert (Hmiss : strict_eq (Some a) (Some b) = false)
    by (apply strict_eq_false; congruence).
  assert (Hget : hostAPI_get request db
    = (if truthy (Some b) then hostAPI_get_user (Some b) request db
       else Responded (error 400 "Invalid hostname"))).
  { unfold hostAPI_get. rewrite Hname, Hauth, Hmiss, andb_false_r.
    now destruct (truthy (Some b)). }
  assert (Hpost : hostAPI_post request db
    = (if truthy (Some b) then hostAPI_post_user b request db
       else (Responded (error 400 "Invalid hostname"), db))).
  { unfold hostAPI_post. rewrite Hname, Hauth, Hmiss, andb_false_r.
    now destruct (truthy (Some b)). }
  split; [exact Hget | split; [exact Hpost |]].
  intros Hadm Hb. apply truthy_Some in Hb. rewrite Hget, Hpost, Hb.
  unfold hostAPI_get_user, hostAPI_post_user. now rewrite Hadm.
Qed.

(** C5.  Someone who is no administrator gets, from GET and from
    DELETE /hosts/:hostname/credentials, the 404 "Host not found" that
    an administrator gets for a host that does not exist, whether the
    host exists or not, and DELETE leaves the database as it was. *)
Theorem credentials_hidden_from_non_admins (request unknown : Request) (db : DB) :
  users.isAdmin (user request) = false ->
  users.isAdmin (user unknown) = true ->
  hosts.get db (property "hostname" (query unknown)) = None ->
  hostAPI_get_credentials request db = Responded (error 404 "Host not found")
  /\ hostAPI_get_credentials request db = hostAPI_get_credentials unknown db
  /\ hostAPI_delete_credentials request db
     = (Responded (error 404 "Host not found"), db)
  /\ hostAPI_delete_credentials request db = hostAPI_delete_credentials unknown db.
Proof.
  intros Hno Hyes Hnone.
  unfold hostAPI_get_credentials, hostAPI_delete_credentials.
  rewrite Hno, Hyes, Hnone. simpl. repeat split.
Qed.

(** C6.  On GET /hosts/[h], for a host [h] of the database, a request
    authenticated by the credential of [h] and a request of an
    administrator get the same answer: the properties of the stored
    host (when [h] is a name at all, that is, not empty). *)
Theorem host_and_admin_read_the_same (by_host by_admin : Request) (db : DB)
    (h : string) (host : Host) :
  property "hostname" (query by_host) = Some h ->
  property "hostname" (query by_admin) = Some h ->
  hosts.get db (Some h) = Some host ->
  hosts.authenticate db by_host = Some h ->
  admin by_admin = true ->
  hostAPI_get by_host db = hostAPI_get by_admin db
  /\ (h <> ""%string ->
      hostAPI_get by_host db = Responded (ok (properties host))
      /\ hostAPI_get by_admin db = Responded (ok (properties host))).
Proof.
  intros Hq1 Hq2 Hget Hauth Hadm.
  unfold hostAPI_get. rewrite Hq1, Hq2, Hauth.
  destruct (truthy (Some h)) eqn:Ht; simpl.
  - assert (Heq : strict_eq (Some h) (Some h) = true) by now apply strict_eq_true.
    rewrite Heq, Hget. unfold hostAPI_get_user. rewrite Hadm, Hget.
    destruct (truthy (hosts.authenticate db by_admin)
              && strict_eq (hosts.authenticate db by_admin) (Some h)); simpl;
      repeat split.
  - split; [reflexivity |]. intros Hne. apply truthy_Some in Hne. congruence.
Qed.

(** C10.  When the [content-type] header of a POST /hosts/:hostname is
    not exactly [application/json], [getHostProperties] hands the query
    parameters themselves to its callback, whatever the body is and
    whatever [JSON.parse] would make of it; so do [updateHost] and
    [createHost], and with them the request of an authenticated host.
    When the header is exactly [application/json], the callback gets
    what [JSON.parse] makes of the body, or the request ends with 400. *)
Theorem host_properties_come_from_the_query (request : Request)
    (callback : json -> DB -> Outcome * DB) (db : DB) :
  (property "content-type" (headers request) <> Some "application/json"%string ->
   (forall chunks,
      getHostProperties (with_data request chunks) callback db
      = callback (query_object (query request)) db)
   /\ (forall hostname,
      updateHost hostname request db
        = updated hostname (query_object (query request)) db
      /\ createHost hostname request db
        = created hostname (query_object (query request)) db)
   /\ (forall hostname,
      property "hostname" (query request) = Some hostname ->
      hostname <> ""%string ->
      hosts.authenticate db request = Some hostname ->
      hostAPI_post request db
        = updated hostname (query_object (query request)) db))
  /\ (property "content-type" (headers request) = Some "application/json"%string ->
      getHostProperties request callback db
      = match JSON.parse (received request) with
        | Some parameters => callback parameters db
        | None => (Responded (error 400 "Problems parsing JSON"), db)
        end).
Proof.
  split.
  - intros Hother.
    assert (Hq : forall k, getHostProperties request k db
                           = k (query_object (query request)) db).
    { intros k. unfold getHostProperties.
      now rewrite (strict_eq_false _ _ Hother). }
    split; [| split].
    + intros chunks. unfold getHostProperties. simpl.
      now rewrite (strict_eq_false _ _ Hother).
    + intros hostname. unfold updateHost, createHost. now rewrite !Hq.
    + intros hostname Hname Hne Hauth. unfold hostAPI_post.
      rewrite Hname, Hauth. apply truthy_Some in Hne. rewrite Hne. simpl.
      assert (Heq : strict_eq (Some hostname) (Some hostname) = true)
        by now apply strict_eq_true.
      rewrite Heq. unfold updateHost. apply Hq.
  - intros Hjson. unfold getHostProperties.
    apply strict_eq_true in Hjson. rewrite Hjson. simpl.
    now destruct (JSON.parse (received request)).
Qed.
End hosts_facts.

(** ** Container ports *)

Section port_facts.
Context `{!machines.lib}.

(** Who gets past the gate of lines 358 to 371. *)
Lemma port_user_spec (request : Request) :
  port_user request <> None
  <-> (user request <> None
       \/ exists scope,
            oauth2scope request = Some scope
            /\ property "hostname" (query request) = Some (scope_hostname scope)
            /\ ("user"%string ∈ scopes scope \/ "user:ports"%string ∈ scopes scope)).
Proof.
  unfold port_user.
  destruct (user request) as [u |]; [split; [now left | discriminate] |].
  destruct (oauth2scope request) as [scope |];
    [| split; [congruence | intros [Hu | [s [Hs _]]]; congruence]].
  destruct (strict_eq (Some (scope_hostname scope))
                      (property "hostname" (query request))) eqn:Hh; simpl.
  - apply strict_eq_true in Hh.
    destruct (covers_ports scope) eqn:Hc; unfold covers_ports in Hc.
    + apply orb_true_iff in Hc. rewrite !bool_decide_eq_true in Hc.
      split; [| discriminate]. intros _. right. exists scope. auto.
    + apply orb_false_iff in Hc. rewrite !bool_decide_eq_false in Hc.
      split; [congruence |].
      intros [Hu | [s [Hs [_ Hcap]]]]; [congruence |].
      injection Hs as <-. destruct Hc, Hcap; contradiction.
  - split; [congruence |].
    intros [Hu | [s [Hs [Hbound _]]]]; [congruence |].
    injection Hs as <-. rewrite <- Hbound in Hh.
    rewrite (proj2 (strict_eq_true _ _) eq_refl) in Hh. discriminate.
Qed.

(** C2, as the code has it.  GET /hosts/:hostname/:container/:port is
    answered 403 "Unauthorized" exactly when the request has no user
    at all (administrator or not) and no delegation scope that is
    bound to the hostname of the request with the capability [user]
    or [user:ports]. *)
Theorem port_gate (request : Request) :
  hostAPI_get_port request = Responded (error 403 "Unauthorized")
  <-> ~ (user request <> None
         \/ exists scope,
              oauth2scope request = Some scope
              /\ property "hostname" (query request) = Some (scope_hostname scope)
              /\ ("user"%string ∈ scopes scope
                  \/ "user:ports"%string ∈ scopes scope)).
Proof.
  rewrite <- port_user_spec. unfold hostAPI_get_port.
  destruct (port_user request) as [u |].
  - split; [| intros Hnot; exfalso; apply Hnot; discriminate].
    destruct (property "container" (query request)) as [container |];
      [| discriminate].
    destruct (invalid_container container); [discriminate |].
    destruct (machines.getMachineByContainer u _ container) as [machine |];
      [| discriminate].
    destruct (docker_ports machine !! port_string request); discriminate.
  - split; [intros _ Hnot; now apply Hnot | reflexivity].
Qed.

(** C7.  Once the request is past the gate, a container id of fewer
    than 16 characters, or with a character outside [0-9a-f], is
    answered 400 "Invalid container ID" whatever a lookup of the
    machine would find: the answer is the same for every
    [getMachineByContainer]. *)
Theorem invalid_container_id_rejected (request : Request) (u : User)
    (container : string) :
  port_user request = Some u ->
  property "container" (query request) = Some container ->
  (String.length container < 16)%nat
  \/ (exists c, In c (list_ascii_of_string container)
                /\ ~ In c (list_ascii_of_string "0123456789abcdef")) ->
  hostAPI_get_port request = Responded (error 400 "Invalid container ID").
Proof.
  intros Hu Hc Hbad. unfold hostAPI_get_port. rewrite Hu, Hc.
  assert (Hinv : invalid_container container = true).
  { unfold invalid_container. apply orb_true_iff.
    destruct Hbad as [Hshort | [c [Hin Hout]]].
    - left. now apply Nat.ltb_lt.
    - right. apply negb_true_iff. unfold hex_test.
      apply andb_false_iff. right.
      destruct (all_hex container) eqn:Hall; [| reflexivity].
      exfalso. apply Hout, hex_digit_class.
      exact (proj1 (all_hex_forall container) Hall c Hin). }
  now rewrite Hinv.
Qed.
End port_facts.

(** ** Patches *)

Lemma changedFile_Some (operation : json) (file : string) :
  changedFile operation = Some file
  <-> exists path, has_path operation path /\ file = strip_slash path.
Proof.
  unfold changedFile, has_path. split.
  - destruct operation as [| | | | | fields]; try discriminate.
    destruct (property "path" fields) as [[| | | path | |] |] eqn:Hp;
      try discriminate.
    intros [= <-]. exists path. split; [exists fields |]; auto.
  - intros [path [[fields [-> Hp]] ->]]. now rewrite Hp.
Qed.

Lemma changedFile_None (operation : json) :
  changedFile operation = None <-> ~ exists path, has_path operation path.
Proof.
  split.
  - intros Hnone [path Hp].
    assert (Hsome : changedFile operation = Some (strip_slash path))
      by (apply changedFile_Some; eauto).
    congruence.
  - intros Hnot. destruct (changedFile operation) as [file |] eqn:Hf; [| reflexivity].
    exfalso. apply Hnot. apply changedFile_Some in Hf as [path [Hp _]]. eauto.
Qed.

Lemma changedFiles_of_paths (items : list json) (paths : list string) :
  Forall2 has_path items paths ->
  changedFiles (JArr items) = Some (map strip_slash paths).
Proof.
  intros Hpaths. unfold changedFiles. apply mapM_Some.
  induction Hpaths as [| item path items paths Hp _ IH]; simpl; constructor.
  - apply changedFile_Some. eauto.
  - exact IH.
Qed.

Lemma changedFiles_None (operations : json) :
  changedFiles operations = None <-> ~ batch_with_paths operations.
Proof.
  unfold batch_with_paths. split.
  - intros Hnone [items [-> Hall]]. unfold changedFiles in Hnone.
    apply mapM_None in Hnone. apply Exists_exists in Hnone as [item [Hin Hitem]].
    rewrite Forall_forall in Hall. apply changedFile_None in Hitem.
    apply Hitem, Hall, Hin.
  - intros Hnot. destruct operations as [| | | | items |]; try reflexivity.
    unfold changedFiles.
    destruct (mapM changedFile items) as [files |] eqn:Hm; [| reflexivity].
    exfalso. apply Hnot. exists items. split; [reflexivity |].
    apply mapM_Some in Hm. clear Hnot.
    induction Hm as [| item file items files Hitem _ IH]; constructor; [| exact IH].
    apply changedFile_Some in Hitem as [path [Hp _]]. eauto.
Qed.

Lemma forbidden_None (allowed files : list string) :
  forbidden allowed files = None <-> forall file, In file files -> In file allowed.
Proof.
  unfold forbidden. split.
  - intros Hnone file Hin. apply includes_In.
    pose proof (find_none _ _ Hnone file Hin) as Hf. simpl in Hf.
    now apply negb_false_iff in Hf.
  - intros Hall. induction files as [| file files IH]; [reflexivity |]. simpl.
    rewrite (proj2 (includes_In allowed file) (Hall file (or_introl eq_refl))).
    simpl. apply IH. intros g Hg. apply Hall. now right.
Qed.

Lemma forbidden_Some (allowed files : list string) (file : string) :
  forbidden allowed files = Some file ->
  exists before after,
    files = before ++ file :: after
    /\ (forall g, In g before -> In g allowed)
    /\ ~ In file allowed.
Proof.
  unfold forbidden. induction files as [| g files IH]; [discriminate |]. simpl.
  destruct (includes allowed g) eqn:Hg; simpl.
  - intros Hfind. destruct (IH Hfind) as [before [after [-> [Hbefore Hfile]]]].
    exists (g :: before), after. repeat split; [| exact Hfile].
    intros g' [<- | Hin]; [now apply includes_In | now apply Hbefore].
  - intros [= <-]. exists [], files. repeat split; [intros g' [] |].
    intros Hin. apply includes_In in Hin. congruence.
Qed.

Section patch_facts.
Context `{!JSON.lib, !jsonpatch.lib, !configurations.lib}.

(** What PATCH /user/configurations does with operations that got
    through its [try] block. *)
Lemma configurationsAPI_patch_checked (request : Request) (u : User)
    (operations : json) :
  user request = Some u ->
  checked_operations (received request) = Some (inl operations) ->
  configurationsAPI_patch request
  = let applied := jsonpatch.applyPatch (configurations u) operations in
    {| outcome := if jsonpatch.thrown applied then Uncaught
                  else Responded (ok (jsonpatch.document applied));
       user_after := Some (with_configurations u (jsonpatch.document applied));
       saved := negb (jsonpatch.thrown applied) |}.
Proof.
  intros Hu Hchecked. unfold configurationsAPI_patch. rewrite Hu, Hchecked.
  simpl. now destruct (jsonpatch.thrown _).
Qed.

(** C3, as the code has it.  PATCH /user and PATCH /user/configurations
    hand the live mapping itself to [jsonpatch.applyPatch]: after the
    request the mapping is the document as [applyPatch] left it,
    whether it returned or threw; [db.save()] runs, and the mapping is
    sent back, exactly when [applyPatch] returned; when it threw,
    nothing is saved and the handler sends nothing. *)
Theorem patch_works_on_the_live_mapping (request : Request) (u : User)
    (operations : json) :
  user request = Some u ->
  JSON.parse (received request) = Some operations ->
  userAPI_patch request
  = (let applied := jsonpatch.applyPatch (profile u) operations in
     {| outcome := if jsonpatch.thrown applied then Uncaught
                   else Responded (ok (jsonpatch.document applied));
        user_after := Some (with_profile u (jsonpatch.document applied));
        saved := negb (jsonpatch.thrown applied) |})
  /\ (forall items paths,
      operations = JArr items ->
      Forall2 has_path items paths ->
      (forall path, In path paths -> In (strip_slash path) configurations.allowed) ->
      configurationsAPI_patch request
      = (let applied := jsonpatch.applyPatch (configurations u) operations in
         {| outcome := if jsonpatch.thrown applied then Uncaught
                       else Responded (ok (jsonpatch.document applied));
            user_after := Some (with_configurations u (jsonpatch.document applied));
            saved := negb (jsonpatch.thrown applied) |})).
Proof.
  intros Hu Hparse. split.
  - unfold userAPI_patch. rewrite Hu, Hparse. simpl.
    now destruct (jsonpatch.thrown _).
  - intros items paths -> Hpaths Hallowed.
    apply configurationsAPI_patch_checked; [exact Hu |].
    unfold checked_operations.
    rewrite Hparse, (changedFiles_of_paths _ _ Hpaths).
    assert (Hnone : forbidden configurations.allowed (map strip_slash paths) = None).
    { apply forbidden_None. intros file Hin.
      apply in_map_iff in Hin as [path [<- Hin]]. now apply Hallowed. }
    now rewrite Hnone.
Qed.

(** C4, as the code has it.  For a batch whose operations name the
    paths [paths], PATCH /user/configurations takes each path without
    its leading ["/"], whole, as the changed file.  If a changed file is
    not allowed, the request ends with 400 "Updating [file] is
    forbidden" for the first such file, with the configurations as they
    were and nothing saved; if every changed file is allowed, the batch
    goes on to [jsonpatch.applyPatch]. *)
Theorem whitelist_is_checked_on_whole_paths (request : Request) (u : User)
    (items : list json) (paths : list string) :
  user request = Some u ->
  JSON.parse (received request) = Some (JArr items) ->
  Forall2 has_path items paths ->
  ((exists path, In path paths /\ ~ In (strip_slash path) configurations.allowed) ->
   exists before file after,
     map strip_slash paths = before ++ file :: after
     /\ (forall g, In g before -> In g configurations.allowed)
     /\ ~ In file configurations.allowed
     /\ configurationsAPI_patch request
        = {| outcome := Responded (error 400 ("Updating " +:+ file +:+ " is forbidden"));
             user_after := Some u; saved := false |})
  /\ ((forall path, In path paths -> In (strip_slash path) configurations.allowed) ->
      configurationsAPI_patch request
      = (let applied := jsonpatch.applyPatch (configurations u) (JArr items) in
         {| outcome := if jsonpatch.thrown applied then Uncaught
                       else Responded (ok (jsonpatch.document applied));
            user_after := Some (with_configurations u (jsonpatch.document applied));
            saved := negb (jsonpatch.thrown applied) |})).
Proof.
  intros Hu Hparse Hpaths. split.
  - intros [path [Hin Hout]].
    destruct (forbidden configurations.allowed (map strip_slash paths))
      as [file |] eqn:Hf.
    + destruct (forbidden_Some _ _ _ Hf) as [before [after [Hsplit [Hb Hfile]]]].
      exists before, file, after. repeat split; try assumption.
      unfold configurationsAPI_patch, checked_operations.
      now rewrite Hu, Hparse, (changedFiles_of_paths _ _ Hpaths), Hf.
    + exfalso. apply Hout. apply (proj1 (forbidden_None _ _) Hf).
      apply in_map_iff. eauto.
  - intros Hallowed. apply configurationsAPI_patch_checked; [exact Hu |].
    unfold checked_operations.
    rewrite Hparse, (changedFiles_of_paths _ _ Hpaths).
    assert (Hnone : forbidden configurations.allowed (map strip_slash paths) = None).
    { apply forbidden_None. intros file Hin.
      apply in_map_iff in Hin as [path [<- Hin]]. now apply Hallowed. }
    now rewrite Hnone.
Qed.

(** C9, as the code has it.  A body that [JSON.parse] rejects ends
    PATCH /user and PATCH /user/configurations with 400 "Problems
    parsing JSON", the user as before and nothing saved, whatever
    [jsonpatch.applyPatch] would do.  PATCH /user/configurations ends
    in the same way when the parsed body is no array, or has an item
    that is no object with a string for its path.  PATCH /user hands
    every body that [JSON.parse] accepts to [jsonpatch.applyPatch]. *)
Theorem malformed_patch_is_a_parse_error (request : Request) (u : User) :
  user request = Some u ->
  (JSON.parse (received request) = None ->
   userAPI_patch request
     = {| outcome := Responded (error 400 "Problems parsing JSON");
          user_after := Some u; saved := false |}
   /\ configurationsAPI_patch request
     = {| outcome := Responded (error 400 "Problems parsing JSON");
          user_after := Some u; saved := false |})
  /\ (forall operations,
        JSON.parse (received request) = Some operations ->
        ~ batch_with_paths operations ->
        configurationsAPI_patch request
        = {| outcome := Responded (error 400 "Problems parsing JSON");
             user_after := Some u; saved := false |})
  /\ (forall operations,
        JSON.parse (received request) = Some operations ->
        userAPI_patch request
        = (let applied := jsonpatch.applyPatch (profile u) operations in
           {| outcome := if jsonpatch.thrown applied then Uncaught
                         else Responded (ok (jsonpatch.document applied));
              user_after := Some (with_profile u (jsonpatch.document applied));
              saved := negb (jsonpatch.thrown applied) |})).
Proof.
  intros Hu. split; [| split].
  - intros Hparse.
    unfold userAPI_patch, configurationsAPI_patch, checked_operations.
    now rewrite Hu, Hparse.
  - intros operations Hparse Hbad.
    unfold configurationsAPI_patch, checked_operations.
    now rewrite Hu, Hparse, (proj2 (changedFiles_None operations) Hbad).
  - intros operations Hparse. unfold userAPI_patch. rewrite Hu, Hparse. simpl.
    now destruct (jsonpatch.thrown _).
Qed.
End patch_facts.

(** ** Deployment *)

Section deploy_facts.
Context `{!engine.lib}.

(** The writes run side by side: the count does not depend on the order
    in which the containers are listed. *)
Lemma count_in_any_order (u : User) (file : option string)
    (running running' : list Container) :
  running ≡ₚ running' ->
  length (filter (fun c => engine.writeFile u file c = true) running)
  = length (filter (fun c => engine.writeFile u file c = true) running').
Proof. intros Hperm. now rewrite Hperm. Qed.

(** C8.  When the containers of the user can be listed, PUT
    /user/configurations/:file answers 200 with the message for the
    number of containers whose write succeeded: "container" for one of
    them, "containers" for any other number.  The containers whose
    write failed are left out of the count and change nothing else in
    the answer; without any container the count is 0. *)
Theorem deployment_answers_with_the_count (request : Request) (u : User)
    (running : list Container) :
  user request = Some u ->
  engine.containers u = Some running ->
  let file := property "file" (query request) in
  let succeeded := filter (fun c => engine.writeFile u file c = true) running in
  let count := length succeeded in
  deployConfigurationInAllContainers u file = Some count
  /\ configurationAPI_put request
     = Responded (ok (JObj [("message"%string, JStr (deployed_message count))]))
  /\ deployed_message count
     = "Successfully deployed to " +:+ decimal count
         +:+ (if decide (count = 1%nat) then " container" else " containers")
  /\ (forall c, c ∈ succeeded <-> c ∈ running /\ engine.writeFile u file c = true)
  /\ (count <= length running)%nat
  /\ (running = [] ->
      deployed_message count = "Successfully deployed to 0 containers"%string).
Proof.
  intros Hu Hrunning file succeeded count.
  assert (Hdeploy : deployConfigurationInAllContainers u file = Some count).
  { unfold deployConfigurationInAllContainers. now rewrite Hrunning. }
  split; [exact Hdeploy |]. split; [| split; [| split; [| split]]].
  - unfold configurationAPI_put. rewrite Hu. fold file. now rewrite Hdeploy.
  - unfold deployed_message. destruct (decide (count = 1%nat)) as [-> | Hne].
    + reflexivity.
    + apply Nat.eqb_neq in Hne. now rewrite Hne.
  - intros c. unfold succeeded. rewrite list_elem_of_filter. tauto.
  - apply length_filter.
  - intros ->. reflexivity.
Qed.
End deploy_facts.

(** ** The examples of the source, and the facts above at work *)

Section examples.
Import Cluster Requests.
Local Open Scope string_scope.

(** The texts of the bodies are what [JSON.parse] reads them as. *)
Example parse_rename :
  received rename
    = "[{" +:+ JSONText.quoted "op" +:+ ":" +:+ JSONText.quoted "add" +:+ ","
       +:+ JSONText.quoted "path" +:+ ":" +:+ JSONText.quoted "/name" +:+ ","
       +:+ JSONText.quoted "value" +:+ ":" +:+ JSONText.quoted "Different Name"
       +:+ "}]"
  /\ JSON.parse (received rename)
     = Some (JArr [operation "add" "/name" "Different Name"]).
Proof. split; reflexivity. Qed.

Example get_host_example :
  hostAPI_get admin_reads_host db0 = Responded (ok (JObj [("port", JStr "2376")]))
  /\ hostAPI_get admin_reads_unknown_host db0
     = Responded (error 404 "Host not found").
Proof. split; vm_compute; reflexivity. Qed.

Example post_host_example :
  fst (hostAPI_post host_posts_itself db0)
    = Responded (ok (JObj [("port", JStr "2376")]))
  /\ hostAPI_post host_posts_elsewhere db0
     = (Responded (error 403 "Unauthorized"), db0).
Proof. split; vm_compute; reflexivity. Qed.

Example get_credentials_example :
  hostAPI_get_credentials admin_reads_host db0
  = Responded (ok (JObj [("id", JStr "1234"); ("secret", JStr "123456")])).
Proof. vm_compute; reflexivity. Qed.

Example get_port_example :
  hostAPI_get_port admin_reads_port
  = Responded (ok (JObj [("port", JNum 42000); ("proxy", JStr "https")])).
Proof. vm_compute; reflexivity. Qed.

Example patch_user_example :
  outcome (userAPI_patch rename)
  = Responded (ok (JObj [("name", JStr "Different Name")])).
Proof. vm_compute; reflexivity. Qed.

Example patch_configurations_example :
  outcome (configurationsAPI_patch configure_git)
  = Responded (ok (JObj [(".gitconfig",
                          JStr ("[user]" +:+ String JSONText.newline "name = Janitor"))])).
Proof. vm_compute; reflexivity. Qed.

Example put_configuration_example :
  configurationAPI_put visitor_deploys
  = Responded (ok (JObj [("message", JStr "Successfully deployed to 0 containers")])).
Proof. vm_compute; reflexivity. Qed.

(** The batches below stay within what [FastJsonPatch] models. *)
Example failing_batches_are_modelled :
  FastJsonPatch.modelled (profile admin)
    (JArr [operation "add" "/name" "Different Name";
           operation "test" "/name" "User Name"])
  = Some {| jsonpatch.document := JObj [("name", JStr "Different Name")];
            jsonpatch.thrown := true |}
  /\ FastJsonPatch.modelled (configurations admin)
       (JArr [operation "add" "/.gitconfig" "[user]";
              operation "test" "/.gitconfig" ""])
     = Some {| jsonpatch.document := JObj [(".gitconfig", JStr "[user]")];
               jsonpatch.thrown := true |}
  /\ FastJsonPatch.modelled (profile admin) (JObj [])
     = Some {| jsonpatch.document := profile admin; jsonpatch.thrown := false |}.
Proof. repeat split. Qed.

(** C1 at work: the credential of [host.name] on
    [unauthorized.host.name]. *)
Lemma host_credential_is_for_one_host_witness :
  hostAPI_get host_posts_elsewhere db0 = Responded (error 404 "Host not found")
  /\ hostAPI_post host_posts_elsewhere db0
     = (Responded (error 403 "Unauthorized"), db0).
Proof.
  refine (proj2 (proj2 (host_credential_is_for_one_host
            host_posts_elsewhere db0 "host.name" "unauthorized.host.name"
            _ _ _)) _ _).
  - vm_compute; reflexivity.
  - reflexivity.
  - discriminate.
  - reflexivity.
  - discriminate.
Defined.

(** C5 at work: the visitor asks for the credentials of a host that
    exists, and gets what the administrator gets for one that does not. *)
Lemma credentials_hidden_from_non_admins_witness :
  hostAPI_get_credentials visitor_reads_host db0
    = hostAPI_get_credentials admin_reads_unknown_host db0
  /\ hostAPI_delete_credentials visitor_reads_host db0
    = (Responded (error 404 "Host not found"), db0).
Proof.
  destruct (credentials_hidden_from_non_admins
              visitor_reads_host admin_reads_unknown_host db0)
    as [_ [Hget [Hdelete _]]].
  - reflexivity.
  - reflexivity.
  - vm_compute; reflexivity.
  - split; [exact Hget | exact Hdelete].
Defined.

(** C6 at work. *)
Lemma host_and_admin_read_the_same_witness :
  hostAPI_get host_reads_itself db0 = hostAPI_get admin_reads_host db0
  /\ hostAPI_get host_reads_itself db0
     = Responded (ok (JObj [("port", JStr "2376")])).
Proof.
  destruct (host_and_admin_read_the_same
              host_reads_itself admin_reads_host db0 "host.name" host_name)
    as [Hsame Hboth].
  - reflexivity.
  - reflexivity.
  - vm_compute; reflexivity.
  - vm_compute; reflexivity.
  - reflexivity.
  - split; [exact Hsame |]. apply Hboth. discriminate.
Defined.

(** C10 at work: a form whose body is no JSON updates the host with
    the query parameters. *)
Lemma host_properties_come_from_the_query_witness :
  hostAPI_post host_posts_a_form db0
  = updated "host.name" (query_object (query host_posts_a_form)) db0.
Proof.
  refine (proj2 (proj2 (proj1 (host_properties_come_from_the_query
            host_posts_a_form (updated "host.name") db0) _)) "host.name" _ _ _).
  - discriminate.
  - reflexivity.
  - discriminate.
  - vm_compute; reflexivity.
Defined.

(** C2 at work: a delegation for ports on [host.name] is let in there,
    and answered 403 on another hostname. *)
Lemma port_gate_witness :
  hostAPI_get_port delegate_reads_port <> Responded (error 403 "Unauthorized")
  /\ hostAPI_get_port delegate_reads_elsewhere = Responded (error 403 "Unauthorized").
Proof.
  split.
  - intros Hdenied. apply (proj1 (port_gate delegate_reads_port) Hdenied).
    right. exists ports_scope.
    split; [reflexivity | split; [reflexivity | right]].
    change ("user:ports" ∈ ({[ "user:ports" ]} : gset string)).
    now apply elem_of_singleton.
  - apply (proj2 (port_gate delegate_reads_elsewhere)).
    intros [Huser | [scope [Hscope [Hbound _]]]].
    + apply Huser. reflexivity.
    + injection Hscope as <-. discriminate Hbound.
Defined.

(** C7 at work: sixteen characters, one of them a [g]. *)
Lemma invalid_container_id_rejected_witness :
  hostAPI_get_port admin_reads_bad_container
  = Responded (error 400 "Invalid container ID").
Proof.
  apply (invalid_container_id_rejected admin_reads_bad_container admin
           "abcdef012345678g").
  - reflexivity.
  - reflexivity.
  - right. exists "g"%char. split.
    + simpl. tauto.
    + simpl. intuition discriminate.
Defined.

(** C8 at work: three containers, one failed write, "2 containers". *)
Lemma deployment_answers_with_the_count_witness :
  configurationAPI_put admin_deploys
  = Responded (ok (JObj [("message", JStr "Successfully deployed to 2 containers")])).
Proof.
  refine (proj1 (proj2 (deployment_answers_with_the_count admin_deploys admin
            [ {| container_host := "host.name"; container_id := "abcdef0123456789" |};
              {| container_host := "host.name"; container_id := "0123456789abcdef" |};
              {| container_host := "host.name"; container_id := "fedcba9876543210" |} ]
            _ _))).
  - reflexivity.
  - reflexivity.
Defined.

(** C3 at work, on the example of PATCH /user. *)
Lemma patch_works_on_the_live_mapping_witness :
  userAPI_patch rename
  = {| outcome := Responded (ok (JObj [("name", JStr "Different Name")]));
       user_after := Some (with_profile admin (JObj [("name", JStr "Different Name")]));
       saved := true |}.
Proof.
  refine (proj1 (patch_works_on_the_live_mapping rename admin
            (JArr [operation "add" "/name" "Different Name"]) _ _)).
  - reflexivity.
  - vm_compute; reflexivity.
Defined.

(** C4 at work: [.bashrc] is refused, after [.gitconfig] was let
    through. *)
Lemma whitelist_is_checked_on_whole_paths_witness :
  exists before file after,
    map strip_slash ["/.gitconfig"; "/.bashrc"] = (before ++ file :: after)%list
    /\ (forall g, In g before -> In g configurations.allowed)
    /\ ~ In file configurations.allowed
    /\ configurationsAPI_patch configure_shell
       = {| outcome := Responded (error 400 ("Updating " +:+ file +:+ " is forbidden"));
            user_after := Some admin; saved := false |}.
Proof.
  refine (proj1 (whitelist_is_checked_on_whole_paths configure_shell admin
            [operation "add" "/.gitconfig" "[user]"; operation "add" "/.bashrc" "exit"]
            ["/.gitconfig"; "/.bashrc"] _ _ _) _).
  - reflexivity.
  - vm_compute; reflexivity.
  - repeat constructor; eexists; (split; [reflexivity | reflexivity]).
  - exists "/.bashrc". split; [simpl; tauto |].
    simpl. intuition discriminate.
Defined.

(** C9 at work: a body that breaks off. *)
Lemma malformed_patch_is_a_parse_error_witness :
  userAPI_patch patch_with_garbage
    = {| outcome := Responded (error 400 "Problems parsing JSON");
         user_after := Some admin; saved := false |}
  /\ configurationsAPI_patch patch_with_garbage
    = {| outcome := Responded (error 400 "Problems parsing JSON");
         user_after := Some admin; saved := false |}.
Proof.
  refine (proj1 (malformed_patch_is_a_parse_error patch_with_garbage admin _) _).
  - reflexivity.
  - vm_compute; reflexivity.
Defined.
End examples.

(** ** Where the code departs from the specification *)

Section departures.
Import Cluster Requests.
Local Open Scope string_scope.

(** C2, as stated, fails: the visitor is no administrator and carries
    no delegation scope, and reads the port of a container all the
    same. *)
Lemma plain_user_reads_a_port :
  users.isAdmin (user visitor_reads_port) = false
  /\ oauth2scope visitor_reads_port = None
  /\ admin_or_delegated visitor_reads_port = false
  /\ hostAPI_get_port visitor_reads_port
     = Responded (ok (JObj [("port", JNum 42001); ("proxy", JStr "https")]))
  /\ hostAPI_get_port visitor_reads_port <> Responded (error 403 "Unauthorized").
Proof.
  assert (Hanswer : hostAPI_get_port visitor_reads_port
    = Responded (ok (JObj [("port", JNum 42001); ("proxy", JStr "https")])))
    by (vm_compute; reflexivity).
  repeat split; try reflexivity; try exact Hanswer.
  rewrite Hanswer. discriminate.
Qed.

(** C3, as stated, fails: the second operation of the batch throws,
    nothing is saved and nothing is answered, and yet the profile,
    respectively the configurations, of the user keep what the first
    operation did. *)
Lemma failed_batch_keeps_its_first_operation :
  (outcome (userAPI_patch rename_then_fail) = Uncaught
   /\ saved (userAPI_patch rename_then_fail) = false
   /\ (profile <$> user_after (userAPI_patch rename_then_fail))
      = Some (JObj [("name", JStr "Different Name")])
   /\ (profile <$> user_after (userAPI_patch rename_then_fail))
      <> (profile <$> user rename_then_fail))
  /\ (outcome (configurationsAPI_patch configure_then_fail) = Uncaught
      /\ saved (configurationsAPI_patch configure_then_fail) = false
      /\ (configurations <$> user_after (configurationsAPI_patch configure_then_fail))
         = Some (JObj [(".gitconfig", JStr "[user]")])
      /\ (configurations <$> user_after (configurationsAPI_patch configure_then_fail))
         <> (configurations <$> user configure_then_fail)).
Proof.
  assert (Hp : userAPI_patch rename_then_fail
    = {| outcome := Uncaught;
         user_after := Some (with_profile admin (JObj [("name", JStr "Different Name")]));
         saved := false |}) by (vm_compute; reflexivity).
  assert (Hc : configurationsAPI_patch configure_then_fail
    = {| outcome := Uncaught;
         user_after := Some (with_configurations admin (JObj [(".gitconfig", JStr "[user]")]));
         saved := false |}) by (vm_compute; reflexivity).
  rewrite Hp, Hc. repeat split; discriminate.
Qed.

(** C4, as stated, fails: the top-level key of [/.gitconfig/x] is
    [.gitconfig], which is allowed, and the batch is refused all the
    same, for the file [.gitconfig/x]. *)
Lemma allowed_top_level_key_is_refused :
  JSON.parse (received configure_below_git)
    = Some (JArr [operation "add" "/.gitconfig/x" "[user]"])
  /\ has_path (operation "add" "/.gitconfig/x" "[user]") "/.gitconfig/x"
  /\ top_level_key "/.gitconfig/x" = ".gitconfig"
  /\ In (top_level_key "/.gitconfig/x") configurations.allowed
  /\ configurationsAPI_patch configure_below_git
     = {| outcome := Responded (error 400 "Updating .gitconfig/x is forbidden");
          user_after := Some admin; saved := false |}.
Proof.
  split; [vm_compute; reflexivity |].
  split; [eexists; split; reflexivity |].
  split; [reflexivity |].
  split; [simpl; tauto |].
  vm_compute; reflexivity.
Qed.

(** C9, as stated, fails: a body that is JSON but no array of
    operations is not answered 400 by PATCH /user; it goes to
    [jsonpatch.applyPatch], the profile is saved and sent back. *)
Lemma object_body_is_patched :
  JSON.parse (received patch_with_an_object) = Some (JObj [])
  /\ ~ batch_with_paths (JObj [])
  /\ userAPI_patch patch_with_an_object
     = {| outcome := Responded (ok (profile admin));
          user_after := Some admin; saved := true |}
  /\ outcome (userAPI_patch patch_with_an_object)
     <> Responded (error 400 "Problems parsing JSON").
Proof.
  split; [vm_compute; reflexivity |].
  split; [intros [items [Harray _]]; discriminate Harray |].
  assert (Hanswer : userAPI_patch patch_with_an_object
    = {| outcome := Responded (ok (profile admin));
         user_after := Some admin; saved := true |}) by (vm_compute; reflexivity).
  split; [exact Hanswer |]. rewrite Hanswer. discriminate.
Qed.
End departures.

(** ** More of the hosts API *)

Section hosts_more.
Context {DB : Type} `{!users.lib, !hosts.lib DB, !JSON.lib, !db.lib DB, !docker.lib}.

Lemma hostAPI_get_named (request : Request) (db : DB) (h : string) :
  property "hostname" (query request) = Some h ->
  h <> ""%string ->
  hostAPI_get request db
  = match (if host_authenticated request db then hosts.get db (Some h) else None) with
    | Some host => Responded (ok (properties host))
    | None => hostAPI_get_user (Some h) request db
    end.
Proof.
  intros Hname Hh. unfold hostAPI_get, host_authenticated. rewrite Hname.
  apply truthy_Some in Hh. now rewrite Hh.
Qed.

Lemma hostAPI_post_named (request : Request) (db : DB) (h : string) :
  property "hostname" (query request) = Some h ->
  h <> ""%string ->
  hostAPI_post request db
  = if host_authenticated request db then updateHost h request db
    else hostAPI_post_user h request db.
Proof.
  intros Hname Hh. unfold hostAPI_post, host_authenticated. rewrite Hname.
  apply truthy_Some in Hh. now rewrite Hh.
Qed.


(** X1.  Without the credential of the host and without an
    administrator, GET /hosts/:hostname answers 404 "Host not found" in
    every database: the answer is the same whether the host is there or
    not. *)
Theorem host_record_hidden_from_outsiders (request : Request) (db db' : DB)
    (h : string) :
  property "hostname" (query request) = Some h ->
  h <> ""%string ->
  admin request = false ->
  host_authenticated request db = false ->
  host_authenticated request db' = false ->
  hostAPI_get request db = Responded (error 404 "Host not found")
  /\ hostAPI_get request db = hostAPI_get request db'.
Proof.
  intros Hname Hh Hadmin Hdb Hdb'.
  rewrite !(hostAPI_get_named _ _ h Hname Hh), Hdb, Hdb'.
  unfold hostAPI_get_user. now rewrite Hadmin.
Qed.

(** X2.  GET /hosts/:hostname/version answers 200 only to an
    administrator, for a host of the database whose engine reported a
    version, and then with that version; every other answer is a 404,
    and for somebody who is no administrator it is "Host not found"
    whatever the database and the engine are. *)
Theorem version_is_for_administrators (request : Request) (db : DB) :
  (users.isAdmin (user request) = false ->
   hostAPI_get_version request db = Responded (error 404 "Host not found"))
  /\ exists response,
       hostAPI_get_version request db = Responded response
       /\ (statusCode response = 200 \/ statusCode response = 404)
       /\ (statusCode response = 200 ->
           users.isAdmin (user request) = true
           /\ hosts.get db (property "hostname" (query request)) <> None
           /\ exists version,
                docker.version (property "hostname" (query request)) = Some version
                /\ body response = JObj [("docker"%string, version)]).
Proof.
  unfold hostAPI_get_version. split.
  - intros Hno. now rewrite Hno.
  - destruct (users.isAdmin (user request)); simpl.
    + destruct (hosts.get db (property "hostname" (query request))) as [host |].
      * destruct (docker.version (property "hostname" (query request)))
          as [version |].
        -- eexists. split; [reflexivity |]. split; [now left |].
           intros _. repeat split; [discriminate |]. now exists version.
        -- eexists. split; [reflexivity |]. split; [now right | discriminate].
      * eexists. split; [reflexivity |]. split; [now right | discriminate].
    + eexists. split; [reflexivity |]. split; [now right | discriminate].
Qed.

(** X3.  A request that names no host, or the empty one, is answered
    400 "Invalid hostname" by GET and by POST /hosts/:hostname, whoever
    sends it, and POST leaves the database as it was. *)
Theorem nameless_host_is_invalid (request : Request) (db : DB) :
  property "hostname" (query request) = None
  \/ property "hostname" (query request) = Some ""%string ->
  hostAPI_get request db = Responded (error 400 "Invalid hostname")
  /\ hostAPI_post request db = (Responded (error 400 "Invalid hostname"), db).
Proof.
  intros [Hnone | Hempty]; unfold hostAPI_get, hostAPI_post.
  - now rewrite Hnone.
  - now rewrite Hempty.
Qed.


(** X5.  A 201 from POST /hosts/:hostname means that an administrator
    asked, without the credential of the host, for a host that the
    database did not have, and that [hosts.create] gave the host whose
    properties the answer carries and the database that is left. *)
Theorem created_means_new_host_of_an_administrator (request : Request)
    (db db' : DB) (response : Response) :
  hostAPI_post request db = (Responded response, db') ->
  statusCode response = 201 ->
  exists h submitted host,
    property "hostname" (query request) = Some h
    /\ admin request = true
    /\ host_authenticated request db = false
    /\ hosts.get db (Some h) = None
    /\ hosts.create h submitted db = (Some host, db')
    /\ body response = properties host.
Proof.
  intros Hpost Hstatus.
  destruct (property "hostname" (query request)) as [h |] eqn:Hname;
    [| unfold hostAPI_post in Hpost; rewrite Hname in Hpost;
       injection Hpost as <- _; discriminate Hstatus].
  destruct (String.eqb_spec h "") as [-> | Hh];
    [unfold hostAPI_post in Hpost; rewrite Hname in Hpost;
     injection Hpost as <- _; discriminate Hstatus |].
  rewrite (hostAPI_post_named _ _ h Hname Hh) in Hpost.
  assert (Hupdate : updateHost h request db <> (Responded response, db')).
  { unfold updateHost, getHostProperties, updated. intros Hu.
    destruct (negb _) in Hu;
      [| destruct (JSON.parse (received request));
         [| injection Hu as <- _; discriminate Hstatus]];
      match type of Hu with
      | context [hosts.update ?a ?b ?c] => destruct (hosts.update a b c) as [[x |] d]
      end; injection Hu as <- _; discriminate Hstatus. }
  destruct (host_authenticated request db) eqn:Hauth; [contradiction |].
  unfold hostAPI_post_user in Hpost.
  destruct (admin request) eqn:Hadmin;
    [| injection Hpost as <- _; discriminate Hstatus].
  destruct (hosts.get db (Some h)) as [known |] eqn:Hget; [contradiction |].
  unfold createHost, getHostProperties, created in Hpost.
  destruct (negb _) in Hpost.
  - destruct (hosts.create h (query_object (query request)) db) as [[host |] d] eqn:Hc;
      injection Hpost as <- <-; [| discriminate Hstatus].
    exists h, (query_object (query request)), host. repeat split; assumption.
  - destruct (JSON.parse (received request)) as [parameters |];
      [| injection Hpost as <- _; discriminate Hstatus].
    destruct (hosts.create h parameters db) as [[host |] d] eqn:Hc;
      injection Hpost as <- <-; [| discriminate Hstatus].
    exists h, parameters, host. repeat split; assumption.
Qed.

(** X6.  A POST /hosts/:hostname that announces [application/json] and
    sends a body that [JSON.parse] rejects changes nothing in the
    database: the host and the administrator get 400 "Problems parsing
    JSON", everybody else 403 "Unauthorized". *)
Theorem unparseable_properties_change_nothing (request : Request) (db : DB)
    (h : string) :
  property "hostname" (query request) = Some h ->
  h <> ""%string ->
  property "content-type" (headers request) = Some "application/json"%string ->
  JSON.parse (received request) = None ->
  hostAPI_post request db
  = (Responded (if host_authenticated request db || admin request
                then error 400 "Problems parsing JSON"
                else error 403 "Unauthorized"), db).
Proof.
  intros Hname Hh Htype Hparse.
  assert (Hprops : forall callback,
            getHostProperties request callback db
            = (Responded (error 400 "Problems parsing JSON"), db)).
  { intros callback. unfold getHostProperties.
    rewrite (proj2 (strict_eq_true _ _) Htype), Hparse. reflexivity. }
  rewrite (hostAPI_post_named _ _ h Hname Hh).
  destruct (host_authenticated request db); simpl.
  - unfold updateHost. apply Hprops.
  - unfold hostAPI_post_user. destruct (admin request); [| reflexivity].
    destruct (hosts.get db (Some h)); unfold updateHost, createHost; apply Hprops.
Qed.

(** X7.  POST /hosts/:hostname leaves the database alone, and answers
    400 or 403, unless the host itself or an administrator asks. *)
Theorem outsiders_change_no_host (request : Request) (db : DB) :
  host_authenticated request db = false ->
  admin request = false ->
  snd (hostAPI_post request db) = db
  /\ (fst (hostAPI_post request db) = Responded (error 400 "Invalid hostname")
      \/ fst (hostAPI_post request db) = Responded (error 403 "Unauthorized")).
Proof.
  intros Hauth Hadmin.
  destruct (property "hostname" (query request)) as [h |] eqn:Hname;
    [| unfold hostAPI_post; rewrite Hname; simpl; auto].
  destruct (String.eqb_spec h "") as [-> | Hh];
    [unfold hostAPI_post; rewrite Hname; simpl; auto |].
  rewrite (hostAPI_post_named _ _ h Hname Hh), Hauth.
  unfold hostAPI_post_user. rewrite Hadmin. simpl. auto.
Qed.

(** X11.  When [hosts.get] finds exactly the hostnames of
    [db.get('hosts')], GET /hosts gives an administrator these
    hostnames in order, and GET /hosts/:hostname and its credentials
    answer the administrator with the stored host for every listed
    name, and with 404 for every other name. *)
Theorem listed_hosts_are_the_readable_ones (list_request : Request) (db : DB) :
  users.isAdmin (user list_request) = true ->
  (forall h, In h (map fst (db.get_hosts db)) <-> hosts.get db (Some h) <> None) ->
  hostsAPI_get list_request db
    = Responded (ok (JArr (map JStr (map fst (db.get_hosts db)))))
  /\ forall (request : Request) (h : string),
       property "hostname" (query request) = Some h ->
       h <> ""%string ->
       admin request = true ->
       users.isAdmin (user request) = true ->
       (In h (map fst (db.get_hosts db)) ->
        exists host,
          hosts.get db (Some h) = Some host
          /\ hostAPI_get request db = Responded (ok (properties host))
          /\ hostAPI_get_credentials request db = Responded (credentials host))
       /\ (~ In h (map fst (db.get_hosts db)) ->
           hostAPI_get request db = Responded (error 404 "Host not found")
           /\ hostAPI_get_credentials request db
              = Responded (error 404 "Host not found")).
Proof.
  intros Hlist Hsame. split.
  - unfold hostsAPI_get. rewrite Hlist. simpl. now rewrite map_map.
  - intros request h Hname Hh Hadmin Hisadmin.
    rewrite (hostAPI_get_named _ _ h Hname Hh).
    unfold hostAPI_get_user, hostAPI_get_credentials.
    rewrite Hadmin, Hisadmin, Hname. simpl. split.
    + intros Hin. apply Hsame in Hin.
      destruct (hosts.get db (Some h)) as [host |]; [| congruence].
      exists host. repeat split. now destruct (host_authenticated request db).
    + intros Hout.
      destruct (hosts.get db (Some h)) as [host |] eqn:Hget.
      * exfalso. apply Hout, Hsame. congruence.
      * now destruct (host_authenticated request db).
Qed.
End hosts_more.

(** ** More of the container ports *)

Lemma invalid_container_false (container : string) :
  invalid_container container = false
  <-> (16 <= String.length container)%nat
      /\ forall c, In c (list_ascii_of_string container) ->
                   In c (list_ascii_of_string "0123456789abcdef").
Proof.
  unfold invalid_container, hex_test.
  rewrite orb_false_iff, negb_false_iff, andb_true_iff, negb_true_iff,
    Nat.ltb_ge, all_hex_forall.
  split.
  - intros [Hlen [_ Hall]]. split; [exact Hlen |].
    intros c Hc. now apply hex_digit_class, Hall.
  - intros [Hlen Hall]. split; [exact Hlen |]. split.
    + destruct container; [simpl in Hlen; lia | reflexivity].
    + intros c Hc. now apply hex_digit_class, Hall.
Qed.

Section port_more.
Context `{!machines.lib}.

(** X8.  For a request past the gate, 400 "Invalid container ID" is the
    answer exactly when the container id is not made of 16 or more
    characters of [0-9a-f]; an id that is so made goes to
    [getMachineByContainer], and the answer is the port of the machine,
    or a 404 that tells a missing container from a missing port. *)
Theorem container_id_decides (request : Request) (u : User) (container : string) :
  port_user request = Some u ->
  property "container" (query request) = Some container ->
  let valid :=
    (16 <= String.length container)%nat
    /\ forall c, In c (list_ascii_of_string container) ->
                 In c (list_ascii_of_string "0123456789abcdef") in
  (hostAPI_get_port request = Responded (error 400 "Invalid container ID")
   <-> ~ valid)
  /\ (valid ->
      hostAPI_get_port request
      = match machines.getMachineByContainer
                u (property "hostname" (query request)) container with
        | None => Responded (error 404 "Container not found")
        | Some machine =>
            match docker_ports machine !! port_string request with
            | Some info => Responded (ok info)
            | None => Responded (error 404 "Port not found")
            end
        end).
Proof.
  intros Hu Hc valid. unfold hostAPI_get_port. rewrite Hu, Hc.
  destruct (invalid_container container) eqn:Hinv.
  - assert (Hnot : ~ valid).
    { intros Hvalid. apply invalid_container_false in Hvalid. congruence. }
    split; [tauto | contradiction].
  - assert (Hvalid : valid) by now apply invalid_container_false.
    split; [| reflexivity]. split; [| contradiction].
    destruct (machines.getMachineByContainer u _ container) as [machine |];
      [| discriminate].
    destruct (docker_ports machine !! port_string request); discriminate.
Qed.

(** X9.  With a user in the session, the delegation scope of the request
    counts for nothing: the answer is the same under every scope, and
    without one. *)
Theorem session_user_comes_first (request : Request) (u : User)
    (scope : option OAuth2Scope) :
  user request = Some u ->
  hostAPI_get_port (with_identity request (Some u) scope) = hostAPI_get_port request.
Proof.
  intros Hu. unfold hostAPI_get_port, port_user, port_string. simpl.
  now rewrite Hu.
Qed.

(** X10.  A delegation scope for this hostname with the capability
    [user] or [user:ports] gets, without a session, the answer that its
    user gets with one. *)
Theorem delegate_reads_as_the_user (request : Request) (scope : OAuth2Scope) :
  user request = None ->
  oauth2scope request = Some scope ->
  property "hostname" (query request) = Some (scope_hostname scope) ->
  "user"%string ∈ scopes scope \/ "user:ports"%string ∈ scopes scope ->
  hostAPI_get_port request
  = hostAPI_get_port (with_identity request (Some (scope_user scope)) None).
Proof.
  intros Hu Hs Hh Hcap.
  assert (Hcovers : covers_ports scope = true).
  { unfold covers_ports. apply orb_true_iff.
    rewrite !bool_decide_eq_true. exact Hcap. }
  unfold hostAPI_get_port, port_user, port_string. simpl.
  rewrite Hu, Hs, Hh, Hcovers.
  now rewrite (proj2 (strict_eq_true _ _) eq_refl).
Qed.
End port_more.

(** ** More of the user API *)




Section user_more.
Context `{!JSON.lib, !jsonpatch.lib, !configurations.lib, !reset.lib, !engine.lib}.


(** X13.  Without a user, every handler of the user API answers 403
    "Unauthorized": nothing is read, patched, reset, deployed or saved,
    whatever the body is. *)
Theorem user_api_needs_a_user (request : Request) :
  user request = None ->
  userAPI_get request = Responded (error 403 "Unauthorized")
  /\ userAPI_patch request
     = {| outcome := Responded (error 403 "Unauthorized");
          user_after := None; saved := false |}
  /\ configurationsAPI_get request = Responded (error 403 "Unauthorized")
  /\ configurationsAPI_patch request
     = {| outcome := Responded (error 403 "Unauthorized");
          user_after := None; saved := false |}
  /\ configurationAPI_delete request
     = {| reply := WithBody (error 403 "Unauthorized"); user_left := None |}
  /\ configurationAPI_put request = Responded (error 403 "Unauthorized").
Proof.
  intros Hnone.
  unfold userAPI_get, userAPI_patch, configurationsAPI_get,
    configurationsAPI_patch, configurationAPI_delete, configurationAPI_put.
  rewrite Hnone. repeat split.
Qed.

(** X14.  PATCH /user touches the profile only, PATCH
    /user/configurations the configurations only: whatever the body is,
    and whether the patch returns or throws, the user is still there,
    under the same key, and the other mapping is as it was. *)
Theorem patches_keep_to_their_mapping (request : Request) (u : User) :
  user request = Some u ->
  (exists u', user_after (userAPI_patch request) = Some u'
              /\ email u' = email u
              /\ configurations u' = configurations u)
  /\ (exists u', user_after (configurationsAPI_patch request) = Some u'
                 /\ email u' = email u
                 /\ profile u' = profile u).
Proof.
  intros Hu. unfold userAPI_patch, configurationsAPI_patch. rewrite Hu. split.
  - destruct (JSON.parse (received request)) as [operations |];
      [| now exists u].
    destruct (jsonpatch.thrown _); eexists; repeat split.
  - destruct (checked_operations (received request)) as [[operations | refusal] |];
      [| now exists u | now exists u].
    destruct (jsonpatch.thrown _); eexists; repeat split.
Qed.

(** X15.  What a PATCH answers with 200 is what the next GET of the same
    mapping answers: GET /user after PATCH /user, and GET
    /user/configurations after PATCH /user/configurations. *)
Theorem patched_mapping_is_read_back (request next : Request)
    (response : Response) :
  statusCode response = 200 ->
  (outcome (userAPI_patch request) = Responded response ->
   user next = user_after (userAPI_patch request) ->
   userAPI_get next = Responded response)
  /\ (outcome (configurationsAPI_patch request) = Responded response ->
      user next = user_after (configurationsAPI_patch request) ->
      configurationsAPI_get next = Responded response).
Proof.
  intros Hstatus. unfold userAPI_patch, configurationsAPI_patch. split.
  - destruct (user request) as [u |];
      [| simpl; intros [= <-]; discriminate Hstatus].
    destruct (JSON.parse (received request)) as [operations |];
      [| simpl; intros [= <-]; discriminate Hstatus].
    destruct (jsonpatch.thrown _); simpl; [discriminate |].
    intros [= <-] Hnext. unfold userAPI_get. now rewrite Hnext.
  - destruct (user request) as [u |];
      [| simpl; intros [= <-]; discriminate Hstatus].
    destruct (checked_operations (received request))
      as [[operations | refusal] |] eqn:Hchecked;
      [| simpl; intros [= <-] | simpl; intros [= <-]; discriminate Hstatus].
    + destruct (jsonpatch.thrown _); simpl; [discriminate |].
      intros [= <-] Hnext. unfold configurationsAPI_get. now rewrite Hnext.
    + unfold checked_operations in Hchecked.
      destruct (JSON.parse (received request)) as [operations |]; [| discriminate].
      destruct (changedFiles operations) as [files |]; [| discriminate].
      destruct (forbidden configurations.allowed files) as [file |];
        [| discriminate].
      injection Hchecked as <-. discriminate Hstatus.
Qed.

(** X16.  [db.save()] runs exactly when the PATCH is answered 200: no
    answer with an error, and no patch that threw, saves anything. *)
Theorem saved_means_answered_200 (request : Request) :
  (saved (userAPI_patch request) = true
   <-> exists response, outcome (userAPI_patch request) = Responded response
                        /\ statusCode response = 200)
  /\ (saved (configurationsAPI_patch request) = true
      <-> exists response,
            outcome (configurationsAPI_patch request) = Responded response
            /\ statusCode response = 200).
Proof.
  unfold userAPI_patch, configurationsAPI_patch. split.
  - destruct (user request) as [u |];
      [| simpl; split; [discriminate | intros [r [[= <-] Hs]]; discriminate Hs]].
    destruct (JSON.parse (received request)) as [operations |];
      [| simpl; split; [discriminate | intros [r [[= <-] Hs]]; discriminate Hs]].
    destruct (jsonpatch.thrown _); simpl.
    + split; [discriminate | intros [r [Ho _]]; discriminate Ho].
    + split; [intros _; eexists; split; reflexivity | reflexivity].
  - destruct (user request) as [u |];
      [| simpl; split; [discriminate | intros [r [[= <-] Hs]]; discriminate Hs]].
    destruct (checked_operations (received request))
      as [[operations | refusal] |] eqn:Hchecked; simpl.
    + destruct (jsonpatch.thrown _); simpl.
      * split; [discriminate | intros [r [Ho _]]; discriminate Ho].
      * split; [intros _; eexists; split; reflexivity | reflexivity].
    + split; [discriminate |]. intros [r [[= <-] Hs]].
      unfold checked_operations in Hchecked.
      destruct (JSON.parse (received request)) as [operations |]; [| discriminate].
      destruct (changedFiles operations) as [files |]; [| discriminate].
      destruct (forbidden configurations.allowed files) as [file |];
        [| discriminate].
      injection Hchecked as <-. discriminate Hs.
    + split; [discriminate | intros [r [[= <-] Hs]]; discriminate Hs].
Qed.

(** X17.  A PATCH that is answered with an error leaves the user as the
    request found it, profile and configurations alike, and saves
    nothing. *)
Theorem refused_patch_changes_nothing (request : Request) (response : Response) :
  statusCode response <> 200 ->
  (outcome (userAPI_patch request) = Responded response ->
   user_after (userAPI_patch request) = user request
   /\ saved (userAPI_patch request) = false)
  /\ (outcome (configurationsAPI_patch request) = Responded response ->
      user_after (configurationsAPI_patch request) = user request
      /\ saved (configurationsAPI_patch request) = false).
Proof.
  intros Hstatus. unfold userAPI_patch, configurationsAPI_patch. split.
  - destruct (user request) as [u |]; [| simpl; auto].
    destruct (JSON.parse (received request)) as [operations |]; [| simpl; auto].
    destruct (jsonpatch.thrown _); simpl; [discriminate |].
    intros [= <-]. now contradiction Hstatus.
  - destruct (user request) as [u |]; [| simpl; auto].
    destruct (checked_operations (received request))
      as [[operations | refusal] |]; simpl; auto.
    destruct (jsonpatch.thrown _); simpl; [discriminate |].
    intros [= <-]. now contradiction Hstatus.
Qed.
End user_more.

(** ** More of the deployment *)

Lemma append_cancel (prefix a b : string) :
  prefix +:+ a = prefix +:+ b -> a = b.
Proof.
  induction prefix as [| c prefix IH]; [trivial |].
  change (String c (prefix +:+ a) = String c (prefix +:+ b) -> a = b).
  intros [= Heq]. now apply IH.
Qed.

(** A text without a blank ends where the first blank is. *)
Lemma blank_ends_the_word (a b x y : string) :
  ~ In " "%char (list_ascii_of_string a) ->
  ~ In " "%char (list_ascii_of_string b) ->
  a +:+ String " " x = b +:+ String " " y ->
  a = b.
Proof.
  revert b. induction a as [| c a IH]; intros [| d b] Ha Hb.
  - reflexivity.
  - change (String " " x = String d (b +:+ String " " y) -> ""%string = String d b).
    intros [= <- _]. exfalso. apply Hb. now left.
  - change (String c (a +:+ String " " x) = String " " y -> String c a = ""%string).
    intros [= -> _]. exfalso. apply Ha. now left.
  - change (String c (a +:+ String " " x) = String d (b +:+ String " " y)
            -> String c a = String d b).
    intros [= <- Heq]. f_equal. apply (IH b); [| | exact Heq].
    + intros Hin. apply Ha. now right.
    + intros Hin. apply Hb. now right.
Qed.

Lemma decimal_has_no_blank (count : nat) :
  ~ In " "%char (list_ascii_of_string (decimal count)).
Proof.
  unfold decimal. induction (Nat.to_uint count) as [| d IH | d IH | d IH | d IH
    | d IH | d IH | d IH | d IH | d IH | d IH]; simpl;
    [tauto | intros [Hc | Hin]; [discriminate Hc | exact (IH Hin)] ..].
Qed.

Lemma decimal_inj (n m : nat) : decimal n = decimal m -> n = m.
Proof.
  unfold decimal. intros Heq. apply DecimalNat.Unsigned.to_uint_inj.
  assert (Hsome : Some (Nat.to_uint n) = Some (Nat.to_uint m))
    by (rewrite <- !NilEmpty.usu; now rewrite Heq).
  now injection Hsome.
Qed.

(** X18.  The message of a deployment tells the count: two different
    counts never give the same message. *)
Theorem message_tells_the_count (n m : nat) :
  n <> m -> deployed_message n <> deployed_message m.
Proof.
  intros Hne Heq. apply Hne, decimal_inj. unfold deployed_message in Heq.
  apply append_cancel in Heq.
  apply (blank_ends_the_word _ _ _ _ (decimal_has_no_blank n)
           (decimal_has_no_blank m) Heq).
Qed.

(** ** The leading slash *)

Section slash_facts.
Context `{!JSON.lib, !configurations.lib}.

(** X19.  The check of PATCH /user/configurations does not tell a path
    without a leading ["/"] from the same path with one: a batch, and
    the batch whose paths have a ["/"] put before them, are refused
    together, with the same answer. *)
Theorem one_leading_slash_is_optional (request request' : Request)
    (items items' : list json) (paths : list string) (refusal : Response) :
  JSON.parse (received request) = Some (JArr items) ->
  JSON.parse (received request') = Some (JArr items') ->
  Forall2 has_path items paths ->
  Forall2 has_path items' (map (String "/") paths) ->
  (forall path rest, In path paths -> path <> String "/" rest) ->
  checked_operations (received request) = Some (inr refusal)
  <-> checked_operations (received request') = Some (inr refusal).
Proof.
  intros Hparse Hparse' Hpaths Hpaths' Hbare.
  assert (Hstrip : map strip_slash (map (String "/") paths) = map strip_slash paths).
  { rewrite map_map. apply map_ext_in. intros path Hin.
    destruct path as [| c path]; [reflexivity |].
    unfold strip_slash. destruct (Ascii.eqb_spec c "/") as [-> | Hc].
    - exfalso. now apply (Hbare (String "/" path) path).
    - destruct c as [[] [] [] [] [] [] [] []]; try reflexivity.
      now contradiction Hc. }
  unfold checked_operations.
  rewrite Hparse, Hparse', (changedFiles_of_paths _ _ Hpaths),
    (changedFiles_of_paths _ _ Hpaths'), Hstrip.
  destruct (forbidden configurations.allowed (map strip_slash paths));
    split; intros Heq; try discriminate Heq; exact Heq.
Qed.
End slash_facts.

(** ** The further facts at work *)

(** The cluster lists the hosts that it finds. *)
Lemma cluster_lists_what_it_finds (db : Cluster.DB) (h : string) :
  In h (map fst (Surroundings.get_hosts db)) <-> Cluster.get db (Some h) <> None.
Proof.
  unfold Surroundings.get_hosts, Cluster.get, Cluster.DB in *.
  rewrite <- list_elem_of_In, list_elem_of_fmap. split.
  - intros [[k host] [-> Hin]]. apply elem_of_map_to_list in Hin.
    intros Hnone. simpl in Hnone. congruence.
  - intros Hfound. destruct (db !! h) as [host |] eqn:Hget; [| congruence].
    exists (h, host). split; [reflexivity | now apply elem_of_map_to_list].
Qed.

(** X5 at work: the administrator creates [new.host.name]. *)
Lemma created_means_new_host_of_an_administrator_witness :
  exists h submitted host,
    property "hostname" (query Surroundings.admin_posts_new_host) = Some h
    /\ admin Surroundings.admin_posts_new_host = true
    /\ host_authenticated Surroundings.admin_posts_new_host Cluster.db0 = false
    /\ hosts.get Cluster.db0 (Some h) = None
    /\ hosts.create h submitted Cluster.db0
       = (Some host,
          snd (hostAPI_post Surroundings.admin_posts_new_host Cluster.db0))
    /\ JObj [("port"%string, JStr "2376")] = properties host.
Proof.
  apply (created_means_new_host_of_an_administrator
           Surroundings.admin_posts_new_host Cluster.db0
           (snd (hostAPI_post Surroundings.admin_posts_new_host Cluster.db0))
           {| statusCode := 201; body := JObj [("port"%string, JStr "2376")] |}).
  - vm_compute; reflexivity.
  - reflexivity.
Defined.

Section more_examples.
Import Cluster Requests Surroundings.
Local Open Scope string_scope.

Example list_hosts_example :
  hostsAPI_get admin_lists_hosts db0 = Responded (ok (JArr [JStr "host.name"])).
Proof. vm_compute; reflexivity. Qed.

Example version_example :
  hostAPI_get_version admin_reads_unknown_host db0
  = Responded (error 404 "Host not found").
Proof. vm_compute; reflexivity. Qed.

Example get_user_example :
  userAPI_get (request [] (Some admin) None)
    = Responded (ok (JObj [("name", JStr "User Name")]))
  /\ configurationsAPI_get (request [] (Some admin) None)
    = Responded (ok (JObj [(".gitconfig", JStr "")])).
Proof. split; reflexivity. Qed.

Example delete_configuration_example :
  reply (configurationAPI_delete (request [("file", ".gitconfig")] (Some admin) None))
  = NoContent 204.
Proof. reflexivity. Qed.

(** X1 at work: the same 404 with the host and without any host. *)
Lemma host_record_hidden_from_outsiders_witness :
  hostAPI_get nobody_reads_host db0 = Responded (error 404 "Host not found")
  /\ hostAPI_get nobody_reads_host db0 = hostAPI_get nobody_reads_host (∅ : DB).
Proof.
  apply (host_record_hidden_from_outsiders nobody_reads_host db0 ∅ "host.name").
  - reflexivity.
  - discriminate.
  - reflexivity.
  - reflexivity.
  - reflexivity.
Defined.

(** X3 at work. *)
Lemma nameless_host_is_invalid_witness :
  hostAPI_get admin_names_no_host db0 = Responded (error 400 "Invalid hostname")
  /\ hostAPI_post admin_names_no_host db0
     = (Responded (error 400 "Invalid hostname"), db0).
Proof.
  apply (nameless_host_is_invalid admin_names_no_host db0).
  right. reflexivity.
Defined.


(** X6 at work: the host sends a body that breaks off. *)
Lemma unparseable_properties_change_nothing_witness :
  hostAPI_post host_posts_garbage db0
  = (Responded (error 400 "Problems parsing JSON"), db0).
Proof.
  etransitivity;
    [apply (unparseable_properties_change_nothing host_posts_garbage db0 "host.name") |].
  - reflexivity.
  - discriminate.
  - reflexivity.
  - vm_compute; reflexivity.
  - vm_compute; reflexivity.
Defined.

(** X7 at work: the credential of another host. *)
Lemma outsiders_change_no_host_witness :
  snd (hostAPI_post host_posts_elsewhere db0) = db0.
Proof.
  refine (proj1 (outsiders_change_no_host host_posts_elsewhere db0 _ _)).
  - vm_compute; reflexivity.
  - reflexivity.
Defined.

(** X8 at work: the container of the example. *)
Lemma container_id_decides_witness :
  hostAPI_get_port admin_reads_port
  = Responded (ok (JObj [("port", JNum 42000); ("proxy", JStr "https")])).
Proof.
  refine (proj2 (container_id_decides admin_reads_port admin "abcdef0123456789"
            _ _) _).
  - reflexivity.
  - reflexivity.
  - apply invalid_container_false. reflexivity.
Defined.

(** X9 at work. *)
Lemma session_user_comes_first_witness :
  hostAPI_get_port admin_with_scope = hostAPI_get_port admin_reads_port.
Proof.
  apply (session_user_comes_first admin_reads_port admin (Some ports_scope)).
  reflexivity.
Defined.

(** X10 at work. *)
Lemma delegate_reads_as_the_user_witness :
  hostAPI_get_port delegate_reads_port = hostAPI_get_port visitor_reads_port.
Proof.
  apply (delegate_reads_as_the_user delegate_reads_port ports_scope).
  - reflexivity.
  - reflexivity.
  - reflexivity.
  - right. change ("user:ports" ∈ ({[ "user:ports" ]} : gset string)).
    now apply elem_of_singleton.
Defined.

(** X11 at work. *)
Lemma listed_hosts_are_the_readable_ones_witness :
  hostsAPI_get admin_lists_hosts db0
  = Responded (ok (JArr (map JStr (map fst (get_hosts db0))))).
Proof.
  refine (proj1 (listed_hosts_are_the_readable_ones admin_lists_hosts db0 _ _)).
  - reflexivity.
  - intros h. apply cluster_lists_what_it_finds.
Defined.


(** X13 at work. *)
Lemma user_api_needs_a_user_witness :
  userAPI_patch nobody_patches
  = {| outcome := Responded (error 403 "Unauthorized");
       user_after := None; saved := false |}.
Proof.
  refine (proj1 (proj2 (user_api_needs_a_user nobody_patches _))).
  reflexivity.
Defined.

(** X14 at work, on a batch that throws. *)
Lemma patches_keep_to_their_mapping_witness :
  exists u', user_after (userAPI_patch rename_then_fail) = Some u'
             /\ email u' = email admin
             /\ configurations u' = configurations admin.
Proof.
  refine (proj1 (patches_keep_to_their_mapping rename_then_fail admin _)).
  reflexivity.
Defined.

(** X15 at work: the example of PATCH /user, read back. *)
Lemma patched_mapping_is_read_back_witness :
  userAPI_get (request [] (user_after (userAPI_patch rename)) None)
  = Responded (ok (JObj [("name", JStr "Different Name")])).
Proof.
  refine (proj1 (patched_mapping_is_read_back rename
            (request [] (user_after (userAPI_patch rename)) None)
            (ok (JObj [("name", JStr "Different Name")])) _) _ _).
  - reflexivity.
  - vm_compute; reflexivity.
  - reflexivity.
Defined.

(** X17 at work. *)
Lemma refused_patch_changes_nothing_witness :
  user_after (configurationsAPI_patch configure_shell) = user configure_shell
  /\ saved (configurationsAPI_patch configure_shell) = false.
Proof.
  refine (proj2 (refused_patch_changes_nothing configure_shell
            (error 400 "Updating .bashrc is forbidden") _) _).
  - discriminate.
  - vm_compute; reflexivity.
Defined.

(** X18 at work. *)
Lemma message_tells_the_count_witness :
  deployed_message 1 <> deployed_message 2.
Proof.
  apply (message_tells_the_count 1 2). discriminate.
Defined.

(** X19 at work: [.bashrc] with and without the slash. *)
Lemma one_leading_slash_is_optional_witness :
  checked_operations
    (received (send [] (Some admin) (JArr [operation "add" ".bashrc" "exit"])))
  = Some (inr (error 400 "Updating .bashrc is forbidden"))
  <-> checked_operations
        (received (send [] (Some admin) (JArr [operation "add" "/.bashrc" "exit"])))
      = Some (inr (error 400 "Updating .bashrc is forbidden")).
Proof.
  apply (one_leading_slash_is_optional
           (send [] (Some admin) (JArr [operation "add" ".bashrc" "exit"]))
           (send [] (Some admin) (JArr [operation "add" "/.bashrc" "exit"]))
           [operation "add" ".bashrc" "exit"] [operation "add" "/.bashrc" "exit"]
           [".bashrc"]).
  - vm_compute; reflexivity.
  - vm_compute; reflexivity.
  - repeat constructor. eexists. split; reflexivity.
  - repeat constructor. eexists. split; reflexivity.
  - intros path rest [<- | []]. discriminate.
Defined.
End more_examples.
